(** * DNSLookup: the DNS lookup and subdomain scan page of VR-CyberGaurd

    A shallow embedding of [src/pages/DNSLookup.tsx].  The page is a React
    component with five state slots and four event handlers
    ([performDNSLookup], [exportResults], [findSubdomains],
    [exportSubdomainResults]).  A handler reads the state of the render it
    was created in, reads the environment (the clock, [Math.random],
    [navigator.userAgent]) and issues effects: toasts, state setters,
    timer waits and file downloads.  Here a handler is a function from the
    rendered state and the environment to the list of its effects, in
    program order; [run] folds the state setters over the state. *)

From Stdlib Require Import String Ascii NArith ZArith QArith Qround Qpower Lia
  Lqa Bool.
From Stdlib Require Import DecimalString List.
Import ListNotations.

Local Open Scope list_scope.

(* ================================================================== *)
(** ** JavaScript strings *)

(** A JavaScript string is a sequence of UTF-16 code units. *)
Definition jsstring := list N.

(** The code units of an ASCII literal of the source. *)
Definition lit (s : string) : jsstring :=
  map N_of_ascii (list_ascii_of_string s).

Arguments lit s%_string.

Definition code (a : ascii) : N := N_of_ascii a.

Arguments code a%_char.

Definition jsstring_eq_dec (s t : jsstring) : {s = t} + {s <> t} :=
  list_eq_dec N.eq_dec s t.

Definition jsstring_eqb (s t : jsstring) : bool :=
  if jsstring_eq_dec s t then true else false.

(** ECMAScript WhiteSpace and LineTerminator code points, the ones
    [String.prototype.trim] strips. *)
Definition isWhiteSpace (c : N) : bool :=
  ((9 <=? c) && (c <=? 13) || (c =? 32) || (c =? 160) || (c =? 5760)
   || (8192 <=? c) && (c <=? 8202) || (c =? 8232) || (c =? 8233)
   || (c =? 8239) || (c =? 8287) || (c =? 12288) || (c =? 65279))%N.

Fixpoint trimStart (s : jsstring) : jsstring :=
  match s with
  | [] => []
  | c :: s' => if isWhiteSpace c then trimStart s' else s
  end.

Definition trimEnd (s : jsstring) : jsstring := rev (trimStart (rev s)).

Definition trim (s : jsstring) : jsstring := trimEnd (trimStart s).

(** [!s] on a string: only the empty string is falsy. *)
Definition not_str (s : jsstring) : bool :=
  match s with [] => true | _ :: _ => false end.

(** [<] on strings compares code units from the left; [leb] is [<=]. *)
Fixpoint jsstring_leb (s t : jsstring) : bool :=
  match s, t with
  | [], _ => true
  | _ :: _, [] => false
  | c :: s', d :: t' =>
      if (c <? d)%N then true
      else if (d <? c)%N then false
      else jsstring_leb s' t'
  end.

(** [String(n)] for a non-negative integer. *)
Definition string_of_nat (n : nat) : jsstring :=
  lit (NilEmpty.string_of_uint (Nat.to_uint n)).

(** [s.split(sep)[0]] for a one-unit separator: the units before the first
    occurrence of [sep], the whole string when there is none. *)
Fixpoint split_head (sep : N) (s : jsstring) : jsstring :=
  match s with
  | [] => []
  | c :: s' => if (c =? sep)%N then [] else c :: split_head sep s'
  end.

(** [Array.prototype.slice(start, end)]: negative indices count from the
    end, both are clamped to the array. *)
Definition slice {A : Type} (l : list A) (start stop : Z) : list A :=
  let len := Z.of_nat (length l) in
  let k := if (start <? 0)%Z then Z.max (len + start) 0 else Z.min start len in
  let final := if (stop <? 0)%Z then Z.max (len + stop) 0 else Z.min stop len in
  firstn (Z.to_nat (Z.max (final - k) 0)) (skipn (Z.to_nat k) l).

(* ================================================================== *)
(** ** JavaScript numbers *)

(** A number: a finite value, given by the rational it denotes (the
    binary64 values are among them; the two zeros are not told apart,
    the page never does), an infinity, or NaN. *)
Inductive number : Type :=
| Finite : Q -> number
| PosInfinity : number
| NegInfinity : number
| NaN : number.

(** An integer literal of the source. *)
Definition int (n : Z) : number := Finite (inject_Z n).

(** The numbers that [!] and [&&] take for false: the zeros and NaN. *)
Definition falsy (n : number) : bool :=
  match n with
  | Finite q => Qeq_bool q 0
  | NaN => true
  | PosInfinity | NegInfinity => false
  end.

Definition pow2 (e : Z) : Q := Qpower 2 e.

(** The finite binary64 values: [m * 2^e] with [|m| < 2^53] and
    [-1074 <= e <= 971]. *)
Definition is_double (x : Q) : Prop :=
  exists m e : Z,
    (Z.abs m < 2 ^ 53)%Z /\ (-1074 <= e <= 971)%Z /\
    (x == inject_Z m * pow2 e)%Q.

(** [floor (log2 x)] for a positive [x]. *)
Definition ilog2 (x : Q) : Z :=
  let c := (Z.log2 (Qnum x) - Z.log2 (Zpos (Qden x)))%Z in
  if Qle_bool (pow2 c) x then c else (c - 1)%Z.

(** The nearest integer, ties to the even one. *)
Definition rne (q : Q) : Z :=
  let f := Qfloor q in
  match (q - inject_Z f ?= 1 # 2)%Q with
  | Lt => f
  | Gt => (f + 1)%Z
  | Eq => if Z.even f then f else (f + 1)%Z
  end.

(** Rounding of a non-negative real to binary64, to nearest, ties to
    even: 53 significant bits, and steps of [2^-1074] below the normal
    range.  Overflow to infinity is left out: the page rounds products
    below 6 only. *)
Definition round64_pos (x : Q) : Q :=
  let s := Z.max (ilog2 x - 52) (-1074) in
  (inject_Z (rne (x / pow2 s)) * pow2 s)%Q.

Definition round64 (x : Q) : Q :=
  match (x ?= 0)%Q with
  | Eq => 0%Q
  | Gt => round64_pos x
  | Lt => (- round64_pos (- x))%Q
  end.

(** [x * y] on finite numbers. *)
Definition mul64 (x y : Q) : Q := round64 (x * y)%Q.

(* ================================================================== *)
(** ** Regular expressions

    The only pattern of the page is anchored at both ends and uses
    classes, concatenation and repetition, so [RegExp.prototype.test] is
    membership of the whole string in the pattern's language, decided here
    with derivatives. *)

Inductive regex : Type :=
| Void : regex
| Eps : regex
| Class : (N -> bool) -> regex
| Cat : regex -> regex -> regex
| Alt : regex -> regex -> regex
| Star : regex -> regex.

Fixpoint nullable (r : regex) : bool :=
  match r with
  | Void => false
  | Eps => true
  | Class _ => false
  | Cat r1 r2 => nullable r1 && nullable r2
  | Alt r1 r2 => nullable r1 || nullable r2
  | Star _ => true
  end.

Fixpoint deriv (c : N) (r : regex) : regex :=
  match r with
  | Void => Void
  | Eps => Void
  | Class p => if p c then Eps else Void
  | Cat r1 r2 =>
      if nullable r1
      then Alt (Cat (deriv c r1) r2) (deriv c r2)
      else Cat (deriv c r1) r2
  | Alt r1 r2 => Alt (deriv c r1) (deriv c r2)
  | Star r1 => Cat (deriv c r1) (Star r1)
  end.

Fixpoint test (r : regex) (s : jsstring) : bool :=
  match s with
  | [] => nullable r
  | c :: s' => test (deriv c r) s'
  end.

(** The language of a pattern, to check [test] against. *)
Inductive matches : regex -> jsstring -> Prop :=
| MEps : matches Eps []
| MClass : forall p c, p c = true -> matches (Class p) [c]
| MCat : forall r1 r2 s1 s2,
    matches r1 s1 -> matches r2 s2 -> matches (Cat r1 r2) (s1 ++ s2)
| MAltL : forall r1 r2 s, matches r1 s -> matches (Alt r1 r2) s
| MAltR : forall r1 r2 s, matches r2 s -> matches (Alt r1 r2) s
| MStar0 : forall r, matches (Star r) []
| MStarS : forall r s1 s2,
    matches r s1 -> matches (Star r) s2 -> matches (Star r) (s1 ++ s2).

(** [r+] *)
Definition Plus (r : regex) : regex := Cat r (Star r).

(** [r{n,}] *)
Fixpoint AtLeast (n : nat) (r : regex) : regex :=
  match n with
  | O => Star r
  | S n' => Cat r (AtLeast n' r)
  end.

Definition range (lo hi : ascii) (c : N) : bool :=
  (code lo <=? c)%N && (c <=? code hi)%N.

Definition isChar (a : ascii) (c : N) : bool := (c =? code a)%N.

Arguments range (lo hi)%_char c.
Arguments isChar a%_char c.

(** [[a-zA-Z0-9.-]] *)
Definition hostChar (c : N) : bool :=
  range "a" "z" c || range "A" "Z" c || range "0" "9" c || isChar "." c || isChar "-" c.

(** [[a-zA-Z]] *)
Definition letter (c : N) : bool :=
  range "a" "z" c || range "A" "Z" c.

(** [/^[a-zA-Z0-9.-]+\.[a-zA-Z]{2,}$/] *)
Definition domainRegex : regex :=
  Cat (Plus (Class hostChar)) (Cat (Class (isChar ".")) (AtLeast 2 (Class letter))).

(* ================================================================== *)
(** ** JavaScript objects and values *)

(** An object is its own properties in insertion order. *)
Definition obj (V : Type) : Type := list (jsstring * V).

Fixpoint obj_get {V : Type} (k : jsstring) (o : obj V) : option V :=
  match o with
  | [] => None
  | (k', v) :: o' => if jsstring_eqb k k' then Some v else obj_get k o'
  end.

(** Writing a property: an existing key keeps its place, a new one goes
    last. *)
Fixpoint obj_set {V : Type} (k : jsstring) (v : V) (o : obj V) : obj V :=
  match o with
  | [] => [(k, v)]
  | (k', v') :: o' =>
      if jsstring_eqb k k' then (k', v) :: o' else (k', v') :: obj_set k v o'
  end.

Definition obj_keys {V : Type} (o : obj V) : list jsstring := map fst o.

Local Unset Elimination Schemes.

(** The values that reach [JSON.stringify]. *)
Inductive jsval : Type :=
| JNum : number -> jsval
| JStr : jsstring -> jsval
| JArr : list jsval -> jsval
| JObj : list (jsstring * jsval) -> jsval.

Local Set Elimination Schemes.

(* ================================================================== *)
(** ** The data model: the interfaces of the page *)

Record DNSRecord : Type := {
  type : jsstring;
  value : jsstring;
  ttl : option number
}.

Module DNSResults.
Record t : Type := {
  domain : jsstring;
  timestamp : jsstring;
  records : obj (list DNSRecord)
}.
End DNSResults.

Inductive Status : Type := active | inactive.

Record Subdomain : Type := {
  subdomain : jsstring;
  ip : jsstring;
  status : Status;
  services : list jsstring;
  lastChecked : jsstring
}.

Module SubdomainResult.
Record t : Type := {
  domain : jsstring;
  subdomains : list Subdomain;
  totalFound : nat
}.
End SubdomainResult.

(** The [useState] slots of the component. *)
Record State : Type := {
  domain : jsstring;
  subdomainDomain : jsstring;
  loading : bool;
  results : option DNSResults.t;
  subdomainResults : option SubdomainResult.t
}.

(** What one handler call reads from outside the component: the value of
    its [Math.random()] call, a binary64 number given by the rational it
    denotes, the result of
    its [i]-th [new Date().toISOString()] call, and
    [navigator.userAgent]. *)
Record Env : Type := {
  random : Q;
  now : nat -> jsstring;
  userAgent : jsstring
}.

(** [Math.random()] returns a binary64 number in [[0, 1)]. *)
Definition valid_random (env : Env) : Prop :=
  is_double (random env) /\ (0 <= random env)%Q /\ (random env < 1)%Q.

Record ToastMsg : Type := {
  title : jsstring;
  description : jsstring;
  variant : option jsstring
}.

Inductive Effect : Type :=
| Toast : ToastMsg -> Effect
| SetLoading : bool -> Effect
| SetResults : DNSResults.t -> Effect
| SetSubdomainResults : SubdomainResult.t -> Effect
| Await : Z -> Effect
| Download : jsstring -> jsval -> Effect.

Definition apply_effect (st : State) (e : Effect) : State :=
  match e with
  | SetLoading b =>
      {| domain := domain st; subdomainDomain := subdomainDomain st;
         loading := b; results := results st;
         subdomainResults := subdomainResults st |}
  | SetResults r =>
      {| domain := domain st; subdomainDomain := subdomainDomain st;
         loading := loading st; results := Some r;
         subdomainResults := subdomainResults st |}
  | SetSubdomainResults r =>
      {| domain := domain st; subdomainDomain := subdomainDomain st;
         loading := loading st; results := results st;
         subdomainResults := Some r |}
  | Toast _ | Await _ | Download _ _ => st
  end.

(** The state after a handler has run to completion. *)
Definition run (handler : State -> Env -> list Effect) (st : State) (env : Env)
  : State :=
  fold_left apply_effect (handler st env) st.

Definition destructive (t d : string) : ToastMsg :=
  {| title := lit t; description := lit d; variant := Some (lit "destructive") |}.

Definition plain (t : jsstring) (d : jsstring) : ToastMsg :=
  {| title := t; description := d; variant := None |}.

(* ================================================================== *)
(** ** performDNSLookup *)

Definition rec (t v : string) (n : Z) : DNSRecord :=
  {| type := lit t; value := lit v; ttl := Some (int n) |}.

(** The object literal of lines 76-101. *)
Definition mockResults (domain : jsstring) (env : Env) : DNSResults.t :=
  {| DNSResults.domain := domain;
     DNSResults.timestamp := now env 0;
     DNSResults.records :=
       [ (lit "A",
           [ rec "A" "93.184.216.34" 3600;
             rec "A" "93.184.216.35" 3600 ]);
         (lit "AAAA",
           [ rec "AAAA" "2606:2800:220:1:248:1893:25c8:1946" 3600 ]);
         (lit "MX",
           [ rec "MX" "10 mail.example.com" 3600;
             rec "MX" "20 mail2.example.com" 3600 ]);
         (lit "NS",
           [ rec "NS" "ns1.example.com" 86400;
             rec "NS" "ns2.example.com" 86400 ]);
         (lit "CNAME", []);
         (lit "TXT",
           [ rec "TXT" "v=spf1 include:_spf.google.com ~all" 3600;
             rec "TXT" "google-site-verification=abc123def456" 3600 ]) ] |}.

(** [o[k].push(x)]; reading a missing key gives [undefined], whose [push]
    throws. *)
Definition push {V : Type} (k : jsstring) (x : V) (o : obj (list V))
  : option (obj (list V)) :=
  match obj_get k o with
  | Some arr => Some (obj_set k (arr ++ [x]) o)
  | None => None
  end.

(** [x > y] on numbers. *)
Definition Qgtb (x y : Q) : bool := negb (Qle_bool x y).

(** The part of the [try] block that builds the result (lines 76-106);
    [None] is a thrown exception. *)
Definition performDNSLookup_try (domain : jsstring) (env : Env)
  : option DNSResults.t :=
  let m := mockResults domain env in
  if Qgtb (random env) (1 # 2) then
    match push (lit "CNAME") (rec "CNAME" "alias.example.com" 3600)
               (DNSResults.records m) with
    | Some recs =>
        Some {| DNSResults.domain := DNSResults.domain m;
                DNSResults.timestamp := DNSResults.timestamp m;
                DNSResults.records := recs |}
    | None => None
    end
  else Some m.

Definition performDNSLookup (st : State) (env : Env) : list Effect :=
  if not_str (trim (domain st)) then
    [Toast (destructive "Error" "Please enter a domain name")]
  else if negb (test domainRegex (domain st)) then
    [Toast (destructive "Error" "Please enter a valid domain name")]
  else
    [SetLoading true; Await 2000]
    ++ match performDNSLookup_try (domain st) env with
       | Some m =>
           [SetResults m;
            Toast (plain (lit "DNS Lookup Complete")
                         (lit "Successfully retrieved DNS records"))]
       | None =>
           [Toast (destructive "Error" "Failed to perform DNS lookup")]
       end
    ++ [SetLoading false].

(* ================================================================== *)
(** ** findSubdomains *)

Definition sub (label : string) (subdomainDomain : jsstring) (addr : string)
  (s : Status) (svc : list string) (checked : jsstring) : Subdomain :=
  {| subdomain := lit label ++ lit "." ++ subdomainDomain;
     ip := lit addr;
     status := s;
     services := map lit svc;
     lastChecked := checked |}.

(** The array literal of lines 158-167. *)
Definition mockSubdomains (subdomainDomain : jsstring) (env : Env)
  : list Subdomain :=
  [ sub "www" subdomainDomain "192.168.1.1" active ["HTTP"; "HTTPS"]%string (now env 0);
    sub "mail" subdomainDomain "192.168.1.2" active ["SMTP"; "IMAP"]%string (now env 1);
    sub "ftp" subdomainDomain "192.168.1.3" inactive ["FTP"]%string (now env 2);
    sub "api" subdomainDomain "192.168.1.4" active ["HTTPS"; "API"]%string (now env 3);
    sub "blog" subdomainDomain "192.168.1.5" active ["HTTP"]%string (now env 4);
    sub "dev" subdomainDomain "192.168.1.6" active ["HTTP"]%string (now env 5);
    sub "staging" subdomainDomain "192.168.1.7" active ["HTTPS"]%string (now env 6);
    sub "cdn" subdomainDomain "192.168.1.8" active ["HTTP"; "HTTPS"]%string (now env 7) ].

(** [Math.floor(Math.random() * 6) + 4] *)
Definition sliceEnd (env : Env) : Z :=
  (Qfloor (mul64 (random env) 6%Q) + 4)%Z.

(** Line 169 for a candidate array: [candidates.slice(0, ...)]. *)
Definition found (candidates : list Subdomain) (env : Env) : list Subdomain :=
  slice candidates 0 (sliceEnd env).

(** [mockSubdomains.slice(0, Math.floor(Math.random() * 6) + 4)] *)
Definition foundSubdomains (subdomainDomain : jsstring) (env : Env)
  : list Subdomain :=
  found (mockSubdomains subdomainDomain env) env.


(** The object passed to [setSubdomainResults] (lines 171-175). *)
Definition scanResult (subdomainDomain : jsstring) (env : Env)
  : SubdomainResult.t :=
  {| SubdomainResult.domain := subdomainDomain;
     SubdomainResult.subdomains := foundSubdomains subdomainDomain env;
     SubdomainResult.totalFound := length (foundSubdomains subdomainDomain env) |}.

Definition findSubdomains (st : State) (env : Env) : list Effect :=
  if not_str (trim (subdomainDomain st)) then
    [Toast (destructive "Error" "Please enter a domain to scan")]
  else
    [SetLoading true; Await 4000;
     SetSubdomainResults (scanResult (subdomainDomain st) env);
     Toast (plain (lit "Subdomain Scan Complete")
                  (lit "Found "
                   ++ string_of_nat (length (foundSubdomains (subdomainDomain st) env))
                   ++ lit " subdomains"));
     SetLoading false].

(* ================================================================== *)
(** ** The exports *)

Definition js_of_DNSRecord (r : DNSRecord) : jsval :=
  JObj ([(lit "type", JStr (type r)); (lit "value", JStr (value r))]
        ++ match ttl r with
           | Some n => [(lit "ttl", JNum n)]
           | None => []
           end).

Definition js_of_records (o : obj (list DNSRecord)) : jsval :=
  JObj (map (fun kv => (fst kv, JArr (map js_of_DNSRecord (snd kv)))) o).

(** The own properties of a [DNSResults] object, as [...results] copies
    them. *)
Definition props_of_DNSResults (r : DNSResults.t) : obj jsval :=
  [ (lit "domain", JStr (DNSResults.domain r));
    (lit "timestamp", JStr (DNSResults.timestamp r));
    (lit "records", js_of_records (DNSResults.records r)) ].

Definition js_of_Status (s : Status) : jsval :=
  match s with
  | active => JStr (lit "active")
  | inactive => JStr (lit "inactive")
  end.

Definition js_of_Subdomain (s : Subdomain) : jsval :=
  JObj [ (lit "subdomain", JStr (subdomain s));
         (lit "ip", JStr (ip s));
         (lit "status", js_of_Status (status s));
         (lit "services", JArr (map JStr (services s)));
         (lit "lastChecked", JStr (lastChecked s)) ].

Definition props_of_SubdomainResult (r : SubdomainResult.t) : obj jsval :=
  [ (lit "domain", JStr (SubdomainResult.domain r));
    (lit "subdomains", JArr (map js_of_Subdomain (SubdomainResult.subdomains r)));
    (lit "totalFound", JNum (int (Z.of_nat (SubdomainResult.totalFound r)))) ].

(** [{...results, userAgent: navigator.userAgent, toolInfo: '...'}] *)
Definition exportData (r : DNSResults.t) (env : Env) : obj jsval :=
  obj_set (lit "toolInfo") (JStr (lit "VRCyber Guard DNS Lookup Tool"))
    (obj_set (lit "userAgent") (JStr (userAgent env))
       (props_of_DNSResults r)).

(** The download of [exportResults]: the file name and the object handed
    to [JSON.stringify]. *)
Definition exportResults (st : State) (env : Env) : list Effect :=
  match results st with
  | None => []
  | Some r =>
      [Download
         (lit "dns-lookup-" ++ DNSResults.domain r ++ lit "-"
          ++ split_head (code "T") (now env 0) ++ lit ".json")
         (JObj (exportData r env))]
  end.

Definition exportSubdomainData (r : SubdomainResult.t) (env : Env) : obj jsval :=
  obj_set (lit "toolInfo")
    (JStr (lit "VR-Cyber-Guard DNS Lookup Tool - Subdomain Scanner"))
    (obj_set (lit "userAgent") (JStr (userAgent env))
       (props_of_SubdomainResult r)).

Definition exportSubdomainResults (st : State) (env : Env) : list Effect :=
  match subdomainResults st with
  | None => []
  | Some r =>
      [Download
         (lit "subdomain-scan-" ++ SubdomainResult.domain r ++ lit "-"
          ++ split_head (code "T") (now env 0) ++ lit ".json")
         (JObj (exportSubdomainData r env))]
  end.

(* ================================================================== *)
(** ** Vocabulary of the specification *)

(** A string the first guard of both handlers rejects: empty, or white
    space only. *)
Definition blank (s : jsstring) : bool := forallb isWhiteSpace s.

(** A domain that passes both guards of [performDNSLookup]. *)
Definition accepted (s : jsstring) : Prop :=
  blank s = false /\ test domainRegex s = true.

(** The candidate labels of the specification, in its order. *)
Definition candidateLabels : list string :=
  ["www"; "mail"; "ftp"; "api"; "blog"; "dev"; "staging"; "cdn"]%string.

(** A candidate of the specification: [label + "." + domain]. *)
Definition candidate (d : jsstring) (label : string) : jsstring :=
  lit label ++ lit "." ++ d.

Definition fqdns (r : SubdomainResult.t) : list jsstring :=
  map subdomain (SubdomainResult.subdomains r).

(** Sorted in non-decreasing order of code units. *)
Fixpoint sorted (l : list jsstring) : bool :=
  match l with
  | [] => true
  | s :: l' =>
      match l' with
      | [] => true
      | t :: _ => jsstring_leb s t && sorted l'
      end
  end.

(** The six record types, in the order of the object literal. *)
Definition recordTypes : list jsstring :=
  map lit ["A"; "AAAA"; "MX"; "NS"; "CNAME"; "TXT"]%string.

Definition cnameAlias : DNSRecord := rec "CNAME" "alias.example.com" 3600.

(** Concrete inputs. *)
Definition env_of (r : Q) : Env :=
  {| random := r;
     now := fun _ => lit "2024-05-01T12:00:00.000Z";
     userAgent := lit "Mozilla/5.0" |}.

Definition state_of (d sd : string) : State :=
  {| domain := lit d; subdomainDomain := lit sd; loading := false;
     results := None; subdomainResults := None |}.

(* ================================================================== *)
(** ** The input fields and the key handlers *)

(** The state of the first render: [useState('')], [useState(false)],
    [useState(null)]. *)
Definition initialState : State :=
  {| domain := []; subdomainDomain := []; loading := false;
     results := None; subdomainResults := None |}.

(** [onChange={(e) => setDomain(e.target.value)}] *)
Definition setDomain (v : jsstring) (st : State) : State :=
  {| domain := v; subdomainDomain := subdomainDomain st;
     loading := loading st; results := results st;
     subdomainResults := subdomainResults st |}.

(** [onChange={(e) => setSubdomainDomain(e.target.value)}] *)
Definition setSubdomainDomain (v : jsstring) (st : State) : State :=
  {| domain := domain st; subdomainDomain := v;
     loading := loading st; results := results st;
     subdomainResults := subdomainResults st |}.

(** [onKeyPress={(e) => e.key === 'Enter' && performDNSLookup()}] *)
Definition onKeyPressDomain (key : jsstring) (st : State) (env : Env)
  : list Effect :=
  if jsstring_eqb key (lit "Enter") then performDNSLookup st env else [].

(** [onKeyPress={(e) => e.key === 'Enter' && findSubdomains()}] *)
Definition onKeyPressSubdomain (key : jsstring) (st : State) (env : Env)
  : list Effect :=
  if jsstring_eqb key (lit "Enter") then findSubdomains st env else [].

(** An effect some call of a handler of the page issues.  The state a
    handler reads is the one of the render it was created in, which can
    be older than the state its effects land on: the handlers wait on a
    timer, and the inputs and the Enter key stay live meanwhile. *)
Inductive handler_effect : Effect -> Prop :=
| he_lookup : forall st env e,
    valid_random env -> In e (performDNSLookup st env) -> handler_effect e
| he_scan : forall st env e,
    valid_random env -> In e (findSubdomains st env) -> handler_effect e
| he_key_domain : forall key st env e,
    valid_random env -> In e (onKeyPressDomain key st env) -> handler_effect e
| he_key_subdomain : forall key st env e,
    valid_random env -> In e (onKeyPressSubdomain key st env) ->
    handler_effect e
| he_export : forall st env e,
    In e (exportResults st env) -> handler_effect e
| he_export_subdomains : forall st env e,
    In e (exportSubdomainResults st env) -> handler_effect e.

(** The states of the component: the first one, and those that typing in
    a field or an effect of a handler call leads to, in any
    interleaving. *)
Inductive reachable : State -> Prop :=
| reach_init : reachable initialState
| reach_setDomain : forall v st,
    reachable st -> reachable (setDomain v st)
| reach_setSubdomainDomain : forall v st,
    reachable st -> reachable (setSubdomainDomain v st)
| reach_effect : forall e st,
    reachable st -> handler_effect e -> reachable (apply_effect st e).

(** What holds of a stored lookup result. *)
Definition good_results (r : DNSResults.t) : Prop :=
  test domainRegex (DNSResults.domain r) = true /\
  obj_keys (DNSResults.records r) = recordTypes /\
  forall k l,
    obj_get k (DNSResults.records r) = Some l ->
    Forall (fun rc => type rc = k /\
                      exists n : Z, ttl rc = Some (int n) /\ (0 < n)%Z) l.

(** What holds of a stored scan result. *)
Definition good_scan (r : SubdomainResult.t) : Prop :=
  blank (SubdomainResult.domain r) = false /\
  SubdomainResult.totalFound r = length (SubdomainResult.subdomains r) /\
  (4 <= SubdomainResult.totalFound r <= 8)%nat /\
  fqdns r
  = firstn (SubdomainResult.totalFound r)
      (map (candidate (SubdomainResult.domain r)) candidateLabels).

Definition state_ok (st : State) : Prop :=
  (forall r, results st = Some r -> good_results r) /\
  (forall r, subdomainResults st = Some r -> good_scan r).

(* ================================================================== *)
(** ** The results panel *)

(** [{record.ttl && (<span>TTL: {record.ttl}s</span>)}]: nothing for a
    missing ttl, the number itself for a falsy ttl (0 or NaN), the label
    otherwise. *)
Inductive TtlCell : Type :=
| NoTtl : TtlCell
| BareTtl : number -> TtlCell
| TtlLabel : number -> TtlCell.

Record RecordRow : Type := {
  rowValue : jsstring;
  rowTtl : TtlCell
}.

Inductive SectionBody : Type :=
| Rows : list RecordRow -> SectionBody
| Message : jsstring -> SectionBody.

Record SectionView : Type := {
  secTitle : jsstring;
  secBadge : nat;
  secDescription : jsstring;
  secBody : SectionBody
}.

Definition ttlCell (t : option number) : TtlCell :=
  match t with
  | None => NoTtl
  | Some n => if falsy n then BareTtl n else TtlLabel n
  end.

Definition recordRow (r : DNSRecord) : RecordRow :=
  {| rowValue := value r; rowTtl := ttlCell (ttl r) |}.

(** The component of lines 212-238. *)
Definition RecordSection (title : jsstring) (records : list DNSRecord)
  (description : jsstring) : SectionView :=
  {| secTitle := title;
     secBadge := length records;
     secDescription := description;
     secBody :=
       if (0 <? length records)%nat
       then Rows (map recordRow records)
       else Message (lit "No " ++ title ++ lit " records found") |}.

(** [Array.prototype.join] on strings. *)
Fixpoint join (sep : jsstring) (l : list jsstring) : jsstring :=
  match l with
  | [] => []
  | s :: l' =>
      match l' with
      | [] => s
      | _ :: _ => s ++ sep ++ join sep l'
      end
  end.

Record SubdomainRow : Type := {
  subName : jsstring;
  subIp : jsstring;
  subServices : jsstring;
  subBadgeClass : jsstring;
  subStatus : jsstring
}.

Definition status_text (s : Status) : jsstring :=
  match s with
  | active => lit "active"
  | inactive => lit "inactive"
  end.

(** One entry of [subdomainResults.subdomains.map(...)] (lines 403-416). *)
Definition subdomainRow (s : Subdomain) : SubdomainRow :=
  {| subName := subdomain s;
     subIp := lit "IP: " ++ ip s;
     subServices := lit "Services: " ++ join (lit ", ") (services s);
     subBadgeClass :=
       match status s with
       | active => lit "bg-primary/20 text-primary border-primary/30"
       | inactive => lit "bg-muted text-muted-foreground border-muted"
       end;
     subStatus := status_text (status s) |}.

(** What the results column shows (lines 381-512). *)
Inductive Panel : Type :=
| SubdomainPanel : nat -> jsstring -> list SubdomainRow -> Panel
| DNSPanel : jsstring -> jsstring -> list SectionView -> Panel
| ReadyPanel : Panel.

(** [<RecordSection title=... records={results.records.K} .../>]; reading
    [length] of a missing key's [undefined] throws. *)
Definition section (title key description : string)
  (recs : obj (list DNSRecord)) : option SectionView :=
  match obj_get (lit key) recs with
  | Some l => Some (RecordSection (lit title) l (lit description))
  | None => None
  end.

Fixpoint sequence {A : Type} (l : list (option A)) : option (list A) :=
  match l with
  | [] => Some []
  | None :: _ => None
  | Some a :: l' =>
      match sequence l' with
      | Some r => Some (a :: r)
      | None => None
      end
  end.

(** The results column of a render; [None] is a render that throws.  The
    timestamp is the string handed to [new Date(...)]. *)
Definition render (st : State) : option Panel :=
  match subdomainResults st with
  | Some r =>
      Some (SubdomainPanel (SubdomainResult.totalFound r)
              (SubdomainResult.domain r)
              (map subdomainRow (SubdomainResult.subdomains r)))
  | None =>
      match results st with
      | Some r =>
          let recs := DNSResults.records r in
          match sequence
                  [ section "A Records" "A"
                      "IPv4 addresses for this domain" recs;
                    section "AAAA Records" "AAAA"
                      "IPv6 addresses for this domain" recs;
                    section "MX Records" "MX"
                      "Mail exchange servers" recs;
                    section "NS Records" "NS"
                      "Authoritative name servers" recs;
                    section "CNAME Records" "CNAME"
                      "Canonical name aliases" recs;
                    section "TXT Records" "TXT"
                      "Text records (SPF, DKIM, verification)" recs ] with
          | Some secs =>
              Some (DNSPanel (DNSResults.domain r) (DNSResults.timestamp r) secs)
          | None => None
          end
      | None => Some ReadyPanel
      end
  end.

(** The lookup button: [disabled={loading}] and its label. *)
Definition lookupButton (st : State) : bool * jsstring :=
  (loading st, if loading st then lit "Looking up..." else lit "Lookup DNS").

(** The scan button. *)
Definition scanButton (st : State) : bool * jsstring :=
  (loading st, if loading st then lit "Scanning..." else lit "Find Subdomains").

(* ================================================================== *)
(** ** Strings *)

Lemma trimStart_nil (s : jsstring) :
  trimStart s = [] <-> forallb isWhiteSpace s = true.
Proof.
  induction s as [|c s IH]; simpl.
  - tauto.
  - destruct (isWhiteSpace c); simpl.
    + exact IH.
    + split; discriminate.
Qed.

Lemma trimStart_head (s : jsstring) :
  trimStart s <> [] -> forallb isWhiteSpace (trimStart s) = false.
Proof.
  induction s as [|c s IH]; simpl.
  - congruence.
  - destruct (isWhiteSpace c) eqn:E.
    + exact IH.
    + intros _. simpl. now rewrite E.
Qed.

Lemma forallb_rev {A : Type} (p : A -> bool) (l : list A) :
  forallb p (rev l) = forallb p l.
Proof.
  induction l as [|a l IH]; simpl.
  - reflexivity.
  - rewrite forallb_app, IH. simpl. rewrite andb_true_r. apply andb_comm.
Qed.

(** The guard [!s.trim()] fires exactly on blank strings. *)
Lemma not_str_trim (s : jsstring) : not_str (trim s) = blank s.
Proof.
  unfold trim, trimEnd, blank.
  destruct (forallb isWhiteSpace s) eqn:E.
  - apply trimStart_nil in E. rewrite E. reflexivity.
  - assert (H : trimStart s <> []).
    { intro H. apply trimStart_nil in H. congruence. }
    apply trimStart_head in H. rewrite <- forallb_rev in H.
    destruct (trimStart (rev (trimStart s))) as [|c t] eqn:T.
    + apply trimStart_nil in T. congruence.
    + simpl. destruct (rev t ++ [c]) eqn:R.
      * now apply app_eq_nil in R.
      * reflexivity.
Qed.

(* ================================================================== *)
(** ** Regular expressions: [test] decides the language *)

Lemma nullable_matches (r : regex) : nullable r = true <-> matches r [].
Proof.
  split.
  - induction r; simpl; intros H; try discriminate.
    + constructor.
    + apply andb_true_iff in H. destruct H as [H1 H2].
      change (@nil N) with (@nil N ++ []). constructor; auto.
    + apply orb_true_iff in H. destruct H; [apply MAltL | apply MAltR]; auto.
    + constructor.
  - intros H. remember (@nil N) as s eqn:E.
    induction H; simpl; try discriminate; try reflexivity.
    + apply app_eq_nil in E. destruct E. apply andb_true_iff. auto.
    + apply orb_true_iff. auto.
    + apply orb_true_iff. auto.
Qed.

Lemma deriv_sound (c : N) (r : regex) :
  forall s, matches (deriv c r) s -> matches r (c :: s).
Proof.
  induction r as [| | p | r1 IH1 r2 IH2 | r1 IH1 r2 IH2 | r IH];
    simpl; intros s H.
  - inversion H.
  - inversion H.
  - destruct (p c) eqn:E; inversion H; subst. now constructor.
  - destruct (nullable r1) eqn:E.
    + inversion H as [| | | ? ? ? H' | ? ? ? H' | |]; subst.
      * inversion H' as [| | ? ? s1 s2 Ha Hb | | | |]; subst.
        change (c :: s1 ++ s2) with ((c :: s1) ++ s2). constructor; auto.
      * change (c :: s) with ([] ++ c :: s). constructor; auto.
        now apply nullable_matches.
    + inversion H as [| | ? ? s1 s2 Ha Hb | | | |]; subst.
      change (c :: s1 ++ s2) with ((c :: s1) ++ s2). constructor; auto.
  - inversion H; subst; [apply MAltL | apply MAltR]; auto.
  - inversion H as [| | ? ? s1 s2 Ha Hb | | | |]; subst.
    change (c :: s1 ++ s2) with ((c :: s1) ++ s2). constructor; auto.
Qed.

Lemma deriv_complete (c : N) (r : regex) (s : jsstring) :
  matches r (c :: s) -> matches (deriv c r) s.
Proof.
  intros H. remember (c :: s) as cs eqn:E. revert s E.
  induction H as [| p c0 Hp | r1 r2 s1 s2 H1 IH1 H2 IH2 | r1 r2 s0 H1 IH1
                  | r1 r2 s0 H2 IH2 | r | r s1 s2 H1 IH1 H2 IH2];
    intros s E; simpl.
  - discriminate.
  - injection E as -> <-. rewrite Hp. constructor.
  - destruct s1 as [|c1 s1].
    + simpl in E. apply nullable_matches in H1. rewrite H1.
      apply MAltR. auto.
    + simpl in E. injection E as -> <-.
      destruct (nullable r1); [apply MAltL|]; constructor; auto.
  - apply MAltL. auto.
  - apply MAltR. auto.
  - discriminate.
  - destruct s1 as [|c1 s1].
    + simpl in E. auto.
    + simpl in E. injection E as -> <-. constructor; auto.
Qed.

Theorem test_matches (r : regex) (s : jsstring) :
  test r s = true <-> matches r s.
Proof.
  revert r. induction s as [|c s IH]; intros r; simpl.
  - apply nullable_matches.
  - rewrite IH. split; [apply deriv_sound | apply deriv_complete].
Qed.

Lemma matches_star_class (p : N -> bool) (s : jsstring) :
  matches (Star (Class p)) s <-> forallb p s = true.
Proof.
  split.
  - intros H. remember (Star (Class p)) as r eqn:E.
    induction H as [| | | | | | r0 s1 s2 H1 _ H2 IH2]; try discriminate.
    + reflexivity.
    + injection E as ->. inversion H1; subst. simpl.
      apply andb_true_iff. auto.
  - induction s as [|c s IH]; simpl; intros H.
    + constructor.
    + apply andb_true_iff in H. destruct H as [Hc Hs].
      change (c :: s) with ([c] ++ s). constructor; auto. now constructor.
Qed.

Lemma matches_cat_inv (r1 r2 : regex) (s : jsstring) :
  matches (Cat r1 r2) s ->
  exists s1 s2, s = s1 ++ s2 /\ matches r1 s1 /\ matches r2 s2.
Proof.
  intros H. inversion H; subst. eauto.
Qed.

Lemma matches_class_inv (p : N -> bool) (s : jsstring) :
  matches (Class p) s -> exists c, s = [c] /\ p c = true.
Proof.
  intros H. inversion H; subst. eauto.
Qed.

(** What the domain pattern accepts: a non-empty run of host characters,
    a dot, and at least two letters up to the end of the string. *)
Theorem domainRegex_spec (s : jsstring) :
  test domainRegex s = true <->
  exists host tld,
    s = host ++ code "." :: tld /\
    host <> [] /\ forallb hostChar host = true /\
    (2 <= length tld)%nat /\ forallb letter tld = true.
Proof.
  rewrite test_matches. unfold domainRegex, Plus. simpl AtLeast. split.
  - intros H.
    apply matches_cat_inv in H. destruct H as (host & rest & -> & Hh & Hr).
    apply matches_cat_inv in Hh. destruct Hh as (h1 & h2 & -> & Hh1 & Hh2).
    apply matches_class_inv in Hh1. destruct Hh1 as (c & -> & Hc).
    apply matches_star_class in Hh2.
    apply matches_cat_inv in Hr. destruct Hr as (dot & tld & -> & Hd & Ht).
    apply matches_class_inv in Hd. destruct Hd as (d & -> & Hd).
    apply N.eqb_eq in Hd. subst d.
    apply matches_cat_inv in Ht. destruct Ht as (l1 & t1 & -> & Hl1 & Ht).
    apply matches_class_inv in Hl1. destruct Hl1 as (a & -> & Ha).
    apply matches_cat_inv in Ht. destruct Ht as (l2 & t2 & -> & Hl2 & Ht).
    apply matches_class_inv in Hl2. destruct Hl2 as (b & -> & Hb).
    apply matches_star_class in Ht.
    exists ([c] ++ h2), ([a] ++ [b] ++ t2). simpl.
    repeat split; try discriminate; try lia.
    + now rewrite Hc.
    + now rewrite Ha, Hb.
  - intros (host & tld & -> & Hne & Hh & Hl & Ht).
    destruct host as [|c h]; [congruence|].
    destruct tld as [|a [|b t]]; simpl in Hl; try lia.
    simpl in Hh, Ht.
    apply andb_true_iff in Hh. destruct Hh as [Hc Hh].
    apply andb_true_iff in Ht. destruct Ht as [Ha Ht].
    apply andb_true_iff in Ht. destruct Ht as [Hb Ht].
    constructor.
    + change (c :: h) with ([c] ++ h). constructor; [now constructor|].
      now apply matches_star_class.
    + change (code "." :: a :: b :: t) with ([code "."] ++ [a] ++ [b] ++ t).
      constructor; [constructor; apply N.eqb_refl|].
      constructor; [now constructor|].
      constructor; [now constructor|].
      now apply matches_star_class.
Qed.

Example domainRegex_accepts :
  test domainRegex (lit "example.com") = true.
Proof. reflexivity. Qed.

Example domainRegex_rejects_no_dot :
  test domainRegex (lit "localhost") = false.
Proof. reflexivity. Qed.

Example domainRegex_rejects_short_tld :
  test domainRegex (lit "example.c") = false.
Proof. reflexivity. Qed.

Example domainRegex_rejects_space :
  test domainRegex (lit " example.com") = false.
Proof. reflexivity. Qed.

Example trim_example : trim (lit "  a b  ") = lit "a b".
Proof. reflexivity. Qed.

(* ================================================================== *)
(** ** Arrays *)

Lemma slice_from_0 {A : Type} (l : list A) (n : Z) :
  (0 <= n)%Z -> slice l 0 n = firstn (Z.to_nat n) l.
Proof.
  intros Hn. unfold slice. cbv zeta.
  replace (0 <? 0)%Z with false by reflexivity.
  destruct (n <? 0)%Z eqn:E; [apply Z.ltb_lt in E; lia|].
  rewrite (Z.min_l 0) by lia. simpl skipn.
  rewrite Z.sub_0_r, Z.max_l by lia.
  destruct (Z.le_ge_cases n (Z.of_nat (length l))) as [H|H].
  - now rewrite Z.min_l.
  - rewrite Z.min_r by lia. rewrite Nat2Z.id.
    rewrite !firstn_all2; trivial; lia.
Qed.


Lemma slice_length_le {A : Type} (l : list A) (a b : Z) :
  (length (slice l a b) <= length l)%nat.
Proof.
  unfold slice. rewrite length_firstn, length_skipn. lia.
Qed.

(* ================================================================== *)
(** ** The random draws *)

Lemma pow2_pos (e : Z) : (0 < pow2 e)%Q.
Proof. unfold pow2. apply Qpower_0_lt. reflexivity. Qed.

Lemma rne_ge_floor (q : Q) : (Qfloor q <= rne q)%Z.
Proof.
  unfold rne. destruct (q - inject_Z (Qfloor q) ?= 1 # 2)%Q; try lia.
  destruct (Z.even (Qfloor q)); lia.
Qed.

Lemma rne_le_ceiling (q : Q) : (rne q <= Qfloor q + 1)%Z.
Proof.
  unfold rne. destruct (q - inject_Z (Qfloor q) ?= 1 # 2)%Q; try lia.
  destruct (Z.even (Qfloor q)); lia.
Qed.

Lemma round64_nonneg (x : Q) : (0 <= x)%Q -> (0 <= round64 x)%Q.
Proof.
  intros H. unfold round64. destruct (x ?= 0)%Q eqn:C.
  - apply Qle_refl.
  - apply Qlt_alt in C. exfalso. now apply (Qle_not_lt 0 x).
  - unfold round64_pos.
    apply Qmult_le_0_compat; [|apply Qlt_le_weak, pow2_pos].
    change 0%Q with (inject_Z 0). rewrite <- Zle_Qle.
    eapply Z.le_trans; [|apply rne_ge_floor].
    change 0%Z with (Qfloor 0). apply Qfloor_resp_le.
    apply Qle_shift_div_l; [apply pow2_pos|].
    now rewrite Qmult_0_l.
Qed.

Lemma rne_nearest (q : Q) :
  (q - (1 # 2) <= inject_Z (rne q) <= q + (1 # 2))%Q.
Proof.
  pose proof (Qfloor_le q) as L. pose proof (Qlt_floor q) as U.
  rewrite inject_Z_plus in U. change (inject_Z 1) with 1%Q in U. unfold rne.
  destruct (q - inject_Z (Qfloor q) ?= 1 # 2)%Q eqn:C.
  - apply Qeq_alt in C. destruct (Z.even (Qfloor q));
      rewrite ?inject_Z_plus; change (inject_Z 1) with 1%Q; split; lra.
  - apply Qlt_alt in C. split; lra.
  - apply Qgt_alt in C. rewrite inject_Z_plus. change (inject_Z 1) with 1%Q.
    split; lra.
Qed.

Lemma pow2_sub (a b : Z) :
  (0 <= a)%Z -> (0 <= b)%Z ->
  (pow2 (a - b) == inject_Z (2 ^ a) / inject_Z (2 ^ b))%Q.
Proof.
  intros Ha Hb. unfold pow2.
  rewrite Qpower_minus by discriminate.
  rewrite !Zpower_Qpower by assumption. reflexivity.
Qed.

Lemma ilog2_spec (x : Q) :
  (0 < x)%Q -> (pow2 (ilog2 x) <= x)%Q /\ (x < pow2 (ilog2 x + 1))%Q.
Proof.
  intros Hx. destruct x as [n d].
  assert (Hn : (0 < n)%Z) by (unfold Qlt in Hx; simpl in Hx; lia).
  pose proof (Z.log2_spec n Hn) as [Ln Un].
  pose proof (Z.log2_spec (Zpos d) (Pos2Z.is_pos d)) as [Ld Ud].
  pose proof (Z.log2_nonneg n) as An.
  pose proof (Z.log2_nonneg (Zpos d)) as Ad.
  unfold ilog2. simpl Qnum. simpl Qden.
  set (a := Z.log2 n) in *. set (b := Z.log2 (Zpos d)) in *.
  assert (Pa : (0 < 2 ^ a)%Z) by (apply Z.pow_pos_nonneg; lia).
  assert (Pb : (0 < 2 ^ b)%Z) by (apply Z.pow_pos_nonneg; lia).
  rewrite Z.pow_succ_r in Un, Ud by lia.
  assert (Hlt : forall A B : Z, (0 < B)%Z -> (n * B < A * Zpos d)%Z ->
            (n # d < inject_Z A / inject_Z B)%Q).
  { intros A B HB H. apply Qlt_shift_div_l.
    - change 0%Q with (inject_Z 0). now rewrite <- Zlt_Qlt.
    - unfold Qlt, Qmult, inject_Z. simpl. lia. }
  assert (Hle : forall A B : Z, (0 < B)%Z -> (A * Zpos d <= n * B)%Z ->
            (inject_Z A / inject_Z B <= n # d)%Q).
  { intros A B HB H. apply Qle_shift_div_r.
    - change 0%Q with (inject_Z 0). now rewrite <- Zlt_Qlt.
    - unfold Qle, Qmult, inject_Z. simpl. lia. }
  destruct (Qle_bool (pow2 (a - b)) (n # d)) eqn:E.
  - split; [now apply Qle_bool_iff|].
    replace (a - b + 1)%Z with ((a + 1) - b)%Z by lia.
    rewrite pow2_sub by lia. apply Hlt; [exact Pb|].
    rewrite Z.pow_add_r by lia. change (2 ^ 1)%Z with 2%Z. nia.
  - assert (N : ~ (pow2 (a - b) <= n # d)%Q)
      by (intros L; apply Qle_bool_iff in L; congruence).
    apply Qnot_le_lt in N. split; [|now replace (a - b - 1 + 1)%Z with (a - b)%Z by lia].
    replace (a - b - 1)%Z with (a - (b + 1))%Z by lia.
    rewrite pow2_sub by lia. apply Hle; [apply Z.pow_pos_nonneg; lia|].
    rewrite Z.pow_add_r by lia. change (2 ^ 1)%Z with 2%Z. nia.
Qed.

Lemma round64_pos_nearest (x : Q) :
  (x - pow2 (Z.max (ilog2 x - 52) (-1074)) / 2 <= round64_pos x)%Q /\
  (round64_pos x <= x + pow2 (Z.max (ilog2 x - 52) (-1074)) / 2)%Q.
Proof.
  unfold round64_pos. cbv zeta.
  set (p := pow2 (Z.max (ilog2 x - 52) (-1074))).
  assert (Pp : (0 < p)%Q) by apply pow2_pos.
  destruct (rne_nearest (x / p)) as [L U].
  apply (Qmult_le_compat_r _ _ p) in L; [|now apply Qlt_le_weak].
  apply (Qmult_le_compat_r _ _ p) in U; [|now apply Qlt_le_weak].
  assert (E1 : ((x / p - (1 # 2)) * p == x - p / 2)%Q)
    by (field; intros Z0; rewrite Z0 in Pp; discriminate).
  assert (E2 : ((x / p + (1 # 2)) * p == x + p / 2)%Q)
    by (field; intros Z0; rewrite Z0 in Pp; discriminate).
  rewrite E1 in L. rewrite E2 in U. split; assumption.
Qed.

Lemma rne_comp (q q' : Q) : (q == q')%Q -> rne q = rne q'.
Proof.
  intros E. unfold rne. rewrite (Qfloor_comp _ _ E).
  assert (C : (q - inject_Z (Qfloor q') ?= 1 # 2)%Q
              = (q' - inject_Z (Qfloor q') ?= 1 # 2)%Q)
    by (apply Qcompare_comp; [now rewrite E | reflexivity]).
  now rewrite C.
Qed.

Lemma rne_Z (k : Z) : rne (inject_Z k) = k.
Proof.
  unfold rne. rewrite Qfloor_Z.
  assert (C : (inject_Z k - inject_Z k ?= 1 # 2)%Q = Lt).
  { apply Qlt_alt. setoid_replace (inject_Z k - inject_Z k)%Q with 0%Q by ring.
    reflexivity. }
  now rewrite C.
Qed.

Lemma pow2_add (a b : Z) : (pow2 (a + b) == pow2 a * pow2 b)%Q.
Proof. unfold pow2. apply Qpower_plus. discriminate. Qed.

Lemma pow2_Z (a : Z) : (0 <= a)%Z -> (pow2 a == inject_Z (2 ^ a))%Q.
Proof. intros H. unfold pow2. now rewrite Zpower_Qpower. Qed.

Lemma round64_pos_double (x : Q) (m e : Z) :
  (0 < m < 2 ^ 53)%Z -> (-1074 <= e)%Z ->
  (x == inject_Z m * pow2 e)%Q ->
  (round64_pos x == x)%Q.
Proof.
  intros Hm He Ex.
  assert (Hx : (0 < x)%Q).
  { rewrite Ex. apply Qmult_lt_0_compat; [|apply pow2_pos].
    change 0%Q with (inject_Z 0). rewrite <- Zlt_Qlt. lia. }
  destruct (ilog2_spec x Hx) as [L _].
  assert (U : (x < pow2 (53 + e))%Q).
  { rewrite Ex, (pow2_add 53 e). apply Qmult_lt_compat_r; [apply pow2_pos|].
    rewrite pow2_Z by lia. rewrite <- Zlt_Qlt. lia. }
  assert (B : (ilog2 x < 53 + e)%Z).
  { apply (Qpower_lt_compat_l_inv 2); [|reflexivity].
    eapply Qle_lt_trans; [exact L | exact U]. }
  unfold round64_pos. cbv zeta.
  set (s := Z.max (ilog2 x - 52) (-1074)).
  assert (Hs : (s <= e)%Z) by (unfold s; lia).
  assert (Es : (pow2 e == pow2 (e - s) * pow2 s)%Q)
    by (rewrite <- pow2_add; now replace (e - s + s)%Z with e by lia).
  assert (Ps : ~ (pow2 s == 0)%Q).
  { intros Z0. pose proof (pow2_pos s) as P. rewrite Z0 in P. discriminate. }
  assert (Q1 : (x / pow2 s == inject_Z (m * 2 ^ (e - s)))%Q).
  { rewrite Ex, Es, inject_Z_mult, <- pow2_Z by lia. now field. }
  rewrite (rne_comp _ _ Q1), rne_Z.
  rewrite inject_Z_mult, <- pow2_Z by lia. rewrite Ex, Es. ring.
Qed.

Lemma round64_double (x : Q) : is_double x -> (round64 x == x)%Q.
Proof.
  intros (m & e & Hm & He & E). unfold round64.
  destruct (x ?= 0)%Q eqn:C.
  - apply Qeq_alt in C. now symmetry.
  - apply Qlt_alt in C.
    assert (Hn : (m < 0)%Z).
    { destruct (Z.lt_ge_cases m 0) as [H|H]; [exact H|]. exfalso.
      apply (Qlt_not_le _ _ C). rewrite E.
      apply Qmult_le_0_compat; [|apply Qlt_le_weak, pow2_pos].
      change 0%Q with (inject_Z 0). now rewrite <- Zle_Qle. }
    assert (E' : (- x == inject_Z (- m) * pow2 e)%Q)
      by (rewrite E, inject_Z_opp; ring).
    rewrite (round64_pos_double (- x) (- m) e); [ring | lia | lia | exact E'].
  - apply Qgt_alt in C.
    assert (Hp : (0 < m)%Z).
    { destruct (Z.lt_ge_cases 0 m) as [H|H]; [exact H|]. exfalso.
      apply (Qlt_not_le _ _ C). rewrite E.
      setoid_replace (inject_Z m * pow2 e)%Q
        with (- (inject_Z (- m) * pow2 e))%Q by (rewrite inject_Z_opp; ring).
      apply (Qopp_le_compat 0).
      apply Qmult_le_0_compat; [|apply Qlt_le_weak, pow2_pos].
      change 0%Q with (inject_Z 0). rewrite <- Zle_Qle. lia. }
    apply (round64_pos_double x m e); [lia | lia | exact E].
Qed.

Lemma double_below_one (r : Q) :
  is_double r -> (r < 1)%Q -> (r <= 1 - pow2 (-53))%Q.
Proof.
  intros (m & e & Hm & He & E) H1.
  assert (P53 : (pow2 53 * pow2 (-53) == 1)%Q) by reflexivity.
  destruct (Z.lt_ge_cases e (-53)) as [Lo | Hi].
  - assert (B : (r < pow2 (-1))%Q).
    { rewrite E. apply Qle_lt_trans with (inject_Z (Z.abs m) * pow2 e)%Q.
      - apply Qmult_le_compat_r; [|apply Qlt_le_weak, pow2_pos].
        rewrite <- Zle_Qle. lia.
      - apply Qlt_le_trans with (pow2 53 * pow2 e)%Q.
        + apply Qmult_lt_compat_r; [apply pow2_pos|].
          rewrite pow2_Z by lia. rewrite <- Zlt_Qlt. lia.
        + rewrite <- pow2_add. apply Qpower_le_compat_l; [lia | discriminate]. }
    eapply Qle_trans; [apply Qlt_le_weak, B|]. discriminate.
  - assert (Er : (r == inject_Z (m * 2 ^ (e + 53)) * pow2 (-53))%Q).
    { rewrite E, inject_Z_mult, <- pow2_Z by lia.
      rewrite <- Qmult_assoc, <- pow2_add.
      now replace (e + 53 + -53)%Z with e by lia. }
    assert (K : (m * 2 ^ (e + 53) < 2 ^ 53)%Z).
    { rewrite Zlt_Qlt. rewrite <- (pow2_Z 53) by lia.
      apply (Qmult_lt_r _ _ (pow2 (-53))); [apply pow2_pos|].
      rewrite <- Er, P53. exact H1. }
    rewrite Er.
    setoid_replace (1 - pow2 (-53))%Q with (inject_Z (2 ^ 53 - 1) * pow2 (-53))%Q
      by reflexivity.
    apply Qmult_le_compat_r; [|apply Qlt_le_weak, pow2_pos].
    rewrite <- Zle_Qle. lia.
Qed.

Lemma round64_six (r : Q) :
  is_double r -> (0 <= r)%Q -> (r < 1)%Q -> (round64 (r * 6) < 6)%Q.
Proof.
  intros D H0 H1. pose proof (double_below_one r D H1) as B.
  unfold round64. destruct (r * 6 ?= 0)%Q eqn:C.
  - reflexivity.
  - apply Qlt_alt in C. exfalso. apply (Qlt_not_le _ _ C).
    apply Qmult_le_0_compat; [assumption | discriminate].
  - apply Qgt_alt in C.
    destruct (round64_pos_nearest (r * 6)) as [_ U].
    destruct (ilog2_spec (r * 6) C) as [L _].
    assert (X : (r * 6 < pow2 3)%Q).
    { apply Qlt_trans with (1 * 6)%Q; [|reflexivity].
      apply Qmult_lt_compat_r; [reflexivity | assumption]. }
    assert (I : (ilog2 (r * 6) < 3)%Z).
    { apply (Qpower_lt_compat_l_inv 2); [|reflexivity].
      eapply Qle_lt_trans; [exact L | exact X]. }
    assert (S : (pow2 (Z.max (ilog2 (r * 6) - 52) (-1074)) <= pow2 (-50))%Q)
      by (apply Qpower_le_compat_l; [lia | discriminate]).
    eapply Qle_lt_trans; [exact U|].
    apply Qle_lt_trans with ((1 - pow2 (-53)) * 6 + pow2 (-50) / 2)%Q.
    + apply Qplus_le_compat.
      * apply Qmult_le_compat_r; [assumption | discriminate].
      * apply Qmult_le_compat_r; [assumption | discriminate].
    + reflexivity.
Qed.

(** With a binary64 draw in [[0, 1)] the bound of the slice is between 4
    and 9. *)
Lemma sliceEnd_range (env : Env) :
  valid_random env -> (4 <= sliceEnd env <= 9)%Z.
Proof.
  intros (D & H0 & H1). unfold sliceEnd, mul64.
  assert (L : (0 <= Qfloor (round64 (random env * 6)))%Z).
  { change 0%Z with (Qfloor 0). apply Qfloor_resp_le. apply round64_nonneg.
    apply Qmult_le_0_compat; [assumption | discriminate]. }
  assert (U : (Qfloor (round64 (random env * 6)) < 6)%Z).
  { rewrite Zlt_Qlt. eapply Qle_lt_trans; [apply Qfloor_le|].
    now apply round64_six. }
  lia.
Qed.

Lemma sliceEnd_ge (env : Env) : valid_random env -> (4 <= sliceEnd env)%Z.
Proof. intros H. now apply sliceEnd_range. Qed.

(** The products that round up to an integer: 0.16666666666666666,
    0.3333333333333333 and 0.6666666666666666 give the bounds 5, 6 and
    8; the largest number below 1 gives 9. *)
Example sliceEnd_sixth :
  sliceEnd (env_of (6004799503160661 # 36028797018963968)) = 5%Z.
Proof. vm_compute. reflexivity. Qed.

Example sliceEnd_third :
  sliceEnd (env_of (6004799503160661 # 18014398509481984)) = 6%Z.
Proof. vm_compute. reflexivity. Qed.

Example sliceEnd_two_thirds :
  sliceEnd (env_of (6004799503160661 # 9007199254740992)) = 8%Z.
Proof. vm_compute. reflexivity. Qed.

Example sliceEnd_below_one :
  sliceEnd (env_of (9007199254740991 # 9007199254740992)) = 9%Z.
Proof. vm_compute. reflexivity. Qed.

Ltac valid_draw m e :=
  split;
  [ exists m, e; split; [reflexivity | split; [lia | reflexivity]]
  | split; unfold Qle, Qlt; simpl; lia ].

Lemma valid_random_0 : valid_random (env_of 0).
Proof. valid_draw 0%Z 0%Z. Qed.

Lemma valid_random_1_8 : valid_random (env_of (1 # 8)).
Proof. valid_draw 1%Z (-3)%Z. Qed.

Lemma valid_random_3_8 : valid_random (env_of (3 # 8)).
Proof. valid_draw 3%Z (-3)%Z. Qed.

Lemma valid_random_half : valid_random (env_of (1 # 2)).
Proof. valid_draw 1%Z (-1)%Z. Qed.

Lemma valid_random_7_8 : valid_random (env_of (7 # 8)).
Proof. valid_draw 7%Z (-3)%Z. Qed.

(* ================================================================== *)
(** ** findSubdomains: what a scan stores *)

Lemma findSubdomains_blank (st : State) (env : Env) :
  blank (subdomainDomain st) = true ->
  findSubdomains st env
  = [Toast (destructive "Error" "Please enter a domain to scan")].
Proof.
  intros H. unfold findSubdomains. now rewrite not_str_trim, H.
Qed.

Lemma findSubdomains_stores (st : State) (env : Env) :
  blank (subdomainDomain st) = false ->
  subdomainResults (run findSubdomains st env)
  = Some (scanResult (subdomainDomain st) env).
Proof.
  intros H. unfold run, findSubdomains. now rewrite not_str_trim, H.
Qed.

Lemma mockSubdomains_fqdns (d : jsstring) (env : Env) :
  map subdomain (mockSubdomains d env) = map (candidate d) candidateLabels.
Proof. reflexivity. Qed.

(** With a binary64 draw in [[0, 1)] the slice keeps the first [k]
    entries of the eight, for a [k] from 4 on. *)
Lemma foundSubdomains_firstn (d : jsstring) (env : Env) :
  valid_random env ->
  exists k : nat,
    (4 <= k <= 8)%nat /\
    foundSubdomains d env = firstn k (mockSubdomains d env).
Proof.
  intros H. apply sliceEnd_ge in H.
  unfold foundSubdomains, found. rewrite slice_from_0 by lia.
  destruct (Nat.le_gt_cases (Z.to_nat (sliceEnd env)) 8) as [L | L].
  - exists (Z.to_nat (sliceEnd env)). split; [lia | reflexivity].
  - exists 8%nat. split; [lia|].
    rewrite !firstn_all2; [reflexivity | simpl; lia | simpl; lia].
Qed.

Ltac bound_cases k H :=
  let E := fresh "E" in
  assert (E : k = 4%nat \/ k = 5%nat \/ k = 6%nat \/ k = 7%nat \/ k = 8%nat)
    by lia;
  clear H;
  destruct E as [E | [E | [E | [E | E]]]]; subst k.


(* ================================================================== *)
(** ** findSubdomains: order of the output *)

(** C2, as stated, fails: for [example.com] and the draw 0 the scan
    stores www, mail, ftp, api in that order, which is not sorted by
    fqdn. *)
Lemma scan_order_counterexample :
  exists res,
    subdomainResults (run findSubdomains (state_of "" "example.com") (env_of 0))
    = Some res /\
    fqdns res = map lit ["www.example.com"; "mail.example.com";
                         "ftp.example.com"; "api.example.com"]%string /\
    sorted (fqdns res) = false.
Proof.
  eexists. split; [reflexivity|]. split; reflexivity.
Qed.

(** C2, amended: for every non-blank input domain and every draw in
    [[0, 1)], the stored subdomains are in the order of the mock list
    (www, mail, ftp, api, blog, dev, staging, cdn, cut after [totalFound]
    entries); that order is never sorted by fqdn, since [www.D] comes
    before [mail.D]. *)
Theorem scan_order (st : State) (env : Env) :
  blank (subdomainDomain st) = false ->
  valid_random env ->
  exists res,
    subdomainResults (run findSubdomains st env) = Some res /\
    fqdns res
    = firstn (SubdomainResult.totalFound res)
        (map (candidate (subdomainDomain st)) candidateLabels) /\
    sorted (fqdns res) = false.
Proof.
  intros Hb Hr. eexists. split; [now apply findSubdomains_stores|].
  unfold fqdns. simpl.
  destruct (foundSubdomains_firstn (subdomainDomain st) env Hr) as (k & Hk & ->).
  bound_cases k Hk; split; reflexivity.
Qed.

Lemma scan_order_witness :
  blank (subdomainDomain (state_of "" "example.com")) = false /\
  valid_random (env_of (3 # 8)) /\
  exists res,
    subdomainResults
      (run findSubdomains (state_of "" "example.com") (env_of (3 # 8)))
    = Some res /\
    fqdns res
    = firstn (SubdomainResult.totalFound res)
        (map (candidate (subdomainDomain (state_of "" "example.com")))
           candidateLabels) /\
    sorted (fqdns res) = false.
Proof.
  assert (Hb : blank (subdomainDomain (state_of "" "example.com")) = false)
    by reflexivity.
  assert (Hr : valid_random (env_of (3 # 8))) by exact valid_random_3_8.
  split; [exact Hb|]. split; [exact Hr|].
  exact (scan_order (state_of "" "example.com") (env_of (3 # 8)) Hb Hr).
Defined.

(* ================================================================== *)
(** ** findSubdomains: counts *)




(** C6: the count 9 of the claim is missed.  For [example.com] and the
    draw 0.875 the bound [Math.floor(Math.random() * 6) + 4] is 9, yet
    the scan stores 8 subdomains: the array literal has eight entries
    and the slice cannot return more.  No draw makes the scan store
    nine. *)
Lemma scan_count_nine_missed :
  valid_random (env_of (7 # 8)) /\
  sliceEnd (env_of (7 # 8)) = 9%Z /\
  (exists res,
     subdomainResults
       (run findSubdomains (state_of "" "example.com") (env_of (7 # 8)))
     = Some res /\
     SubdomainResult.totalFound res = 8%nat) /\
  ~ exists env res,
      valid_random env /\
      subdomainResults (run findSubdomains (state_of "" "example.com") env)
      = Some res /\
      SubdomainResult.totalFound res = 9%nat.
Proof.
  split; [exact valid_random_7_8|].
  split; [vm_compute; reflexivity|].
  split; [eexists; split; [reflexivity | vm_compute; reflexivity]|].
  intros (env & res & _ & Hres & H9).
  rewrite findSubdomains_stores in Hres by reflexivity.
  injection Hres as <-.
  change (length (slice (mockSubdomains (lit "example.com") env) 0
                    (sliceEnd env)) = 9%nat) in H9.
  pose proof (slice_length_le (mockSubdomains (lit "example.com") env)
                0 (sliceEnd env)) as L.
  rewrite H9 in L. simpl in L. lia.
Qed.

(* ================================================================== *)
(** ** findSubdomains: the candidates *)

(** C9: the fqdns a scan stores are a prefix of the candidate sequence
    www, mail, ftp, api, blog, dev, staging, cdn applied to the input
    domain; the first four are always there, and every fqdn is one of
    the eight labels, a dot and the input domain. *)
Theorem scan_candidates (st : State) (env : Env) :
  blank (subdomainDomain st) = false ->
  valid_random env ->
  exists res,
    subdomainResults (run findSubdomains st env) = Some res /\
    (exists rest,
       map (candidate (subdomainDomain st)) candidateLabels
       = fqdns res ++ rest) /\
    (In (lit "www." ++ subdomainDomain st) (fqdns res) /\
     In (lit "mail." ++ subdomainDomain st) (fqdns res) /\
     In (lit "ftp." ++ subdomainDomain st) (fqdns res) /\
     In (lit "api." ++ subdomainDomain st) (fqdns res)) /\
    Forall (fun f => exists label,
                       In label candidateLabels /\
                       f = lit label ++ lit "." ++ subdomainDomain st)
           (fqdns res).
Proof.
  intros Hb Hr. eexists. split; [now apply findSubdomains_stores|].
  unfold fqdns. simpl.
  destruct (foundSubdomains_firstn (subdomainDomain st) env Hr) as (k & Hk & E).
  assert (P : exists rest,
             map (candidate (subdomainDomain st)) candidateLabels
             = map subdomain (foundSubdomains (subdomainDomain st) env) ++ rest).
  { rewrite <- (mockSubdomains_fqdns (subdomainDomain st) env), E.
    exists (map subdomain (skipn k (mockSubdomains (subdomainDomain st) env))).
    now rewrite <- map_app, firstn_skipn. }
  split; [exact P|]. split.
  - rewrite E. bound_cases k Hk; simpl; tauto.
  - destruct P as [rest P].
    assert (A : Forall (fun f => exists label,
                          In label candidateLabels /\
                          f = lit label ++ lit "." ++ subdomainDomain st)
                  (map (candidate (subdomainDomain st)) candidateLabels)).
    { apply Forall_forall. intros f Hf. apply in_map_iff in Hf.
      destruct Hf as (label & <- & Hl). now exists label. }
    rewrite P in A. now apply Forall_app in A.
Qed.

Lemma scan_candidates_witness :
  blank (subdomainDomain (state_of "" "example.com")) = false /\
  valid_random (env_of (1 # 2)) /\
  exists res,
    subdomainResults
      (run findSubdomains (state_of "" "example.com") (env_of (1 # 2)))
    = Some res /\
    (exists rest,
       map (candidate (subdomainDomain (state_of "" "example.com")))
         candidateLabels
       = fqdns res ++ rest) /\
    (In (lit "www." ++ subdomainDomain (state_of "" "example.com")) (fqdns res) /\
     In (lit "mail." ++ subdomainDomain (state_of "" "example.com")) (fqdns res) /\
     In (lit "ftp." ++ subdomainDomain (state_of "" "example.com")) (fqdns res) /\
     In (lit "api." ++ subdomainDomain (state_of "" "example.com")) (fqdns res)) /\
    Forall (fun f => exists label,
                       In label candidateLabels /\
                       f = lit label ++ lit "."
                           ++ subdomainDomain (state_of "" "example.com"))
           (fqdns res).
Proof.
  assert (Hr : valid_random (env_of (1 # 2))) by exact valid_random_half.
  split; [reflexivity|]. split; [exact Hr|].
  exact (scan_candidates (state_of "" "example.com") (env_of (1 # 2))
           eq_refl Hr).
Defined.

(** C10: every record a scan stores has at least one service and a
    non-empty IP, whatever its status; the record of [ftp.D] is always
    stored, is inactive and lists the service FTP. *)
Theorem scan_services (st : State) (env : Env) :
  blank (subdomainDomain st) = false ->
  valid_random env ->
  exists res,
    subdomainResults (run findSubdomains st env) = Some res /\
    Forall (fun s => services s <> [] /\ ip s <> [])
           (SubdomainResult.subdomains res) /\
    exists s,
      In s (SubdomainResult.subdomains res) /\
      subdomain s = lit "ftp." ++ subdomainDomain st /\
      status s = inactive /\
      services s = [lit "FTP"].
Proof.
  intros Hb Hr. eexists. split; [now apply findSubdomains_stores|].
  simpl.
  destruct (foundSubdomains_firstn (subdomainDomain st) env Hr) as (k & Hk & ->).
  split.
  - bound_cases k Hk; simpl;
      repeat (constructor; [split; discriminate|]); constructor.
  - exists (sub "ftp" (subdomainDomain st) "192.168.1.3" inactive ["FTP"%string]
              (now env 2)).
    split; [|repeat split].
    bound_cases k Hk; simpl; tauto.
Qed.

Lemma scan_services_witness :
  blank (subdomainDomain (state_of "" "example.com")) = false /\
  valid_random (env_of (1 # 8)) /\
  exists res,
    subdomainResults
      (run findSubdomains (state_of "" "example.com") (env_of (1 # 8)))
    = Some res /\
    Forall (fun s => services s <> [] /\ ip s <> [])
           (SubdomainResult.subdomains res) /\
    exists s,
      In s (SubdomainResult.subdomains res) /\
      subdomain s = lit "ftp." ++ subdomainDomain (state_of "" "example.com") /\
      status s = inactive /\
      services s = [lit "FTP"].
Proof.
  assert (Hr : valid_random (env_of (1 # 8))) by exact valid_random_1_8.
  split; [reflexivity|]. split; [exact Hr|].
  exact (scan_services (state_of "" "example.com") (env_of (1 # 8))
           eq_refl Hr).
Defined.

(* ================================================================== *)
(** ** Objects *)

Lemma jsstring_eqb_eq (s t : jsstring) : jsstring_eqb s t = true <-> s = t.
Proof.
  unfold jsstring_eqb. destruct (jsstring_eq_dec s t); split; congruence.
Qed.

Lemma obj_keys_set_present {V : Type} (k : jsstring) (v : V) (o : obj V) :
  In k (obj_keys o) -> obj_keys (obj_set k v o) = obj_keys o.
Proof.
  induction o as [|[k' v'] o IH]; simpl.
  - tauto.
  - intros [E | H].
    + subst k'. assert (R : jsstring_eqb k k = true) by now apply jsstring_eqb_eq.
      now rewrite R.
    + destruct (jsstring_eqb k k'); simpl; [reflexivity|].
      f_equal. now apply IH.
Qed.

Lemma obj_get_set_other {V : Type} (k k' : jsstring) (v : V) (o : obj V) :
  k <> k' -> obj_get k (obj_set k' v o) = obj_get k o.
Proof.
  intros N. induction o as [|[k0 v0] o IH]; simpl.
  - destruct (jsstring_eqb k k') eqn:E; [apply jsstring_eqb_eq in E; tauto|].
    reflexivity.
  - destruct (jsstring_eqb k' k0) eqn:E; simpl.
    + apply jsstring_eqb_eq in E. subst k0.
      destruct (jsstring_eqb k k') eqn:F; [apply jsstring_eqb_eq in F; tauto|].
      reflexivity.
    + now rewrite IH.
Qed.

(* ================================================================== *)
(** ** performDNSLookup: what a lookup stores *)

(** The records of a lookup: the mock records with the alias pushed on
    CNAME when the draw is above one half. *)
Lemma performDNSLookup_try_records (d : jsstring) (env : Env) :
  performDNSLookup_try d env
  = Some {| DNSResults.domain := d;
            DNSResults.timestamp := now env 0;
            DNSResults.records :=
              obj_set (lit "CNAME")
                (if Qgtb (random env) (1 # 2) then [cnameAlias] else [])
                (DNSResults.records (mockResults d env)) |}.
Proof.
  unfold performDNSLookup_try. destruct (Qgtb (random env) (1 # 2)); reflexivity.
Qed.

Lemma performDNSLookup_effects (st : State) (env : Env) :
  accepted (domain st) ->
  exists r,
    performDNSLookup_try (domain st) env = Some r /\
    performDNSLookup st env
    = [SetLoading true; Await 2000; SetResults r;
       Toast (plain (lit "DNS Lookup Complete")
                    (lit "Successfully retrieved DNS records"));
       SetLoading false].
Proof.
  intros [Hb Ht]. eexists. split; [apply performDNSLookup_try_records|].
  unfold performDNSLookup.
  now rewrite not_str_trim, Hb, Ht, performDNSLookup_try_records.
Qed.

Lemma performDNSLookup_stores (st : State) (env : Env) :
  accepted (domain st) ->
  results (run performDNSLookup st env) = performDNSLookup_try (domain st) env.
Proof.
  intros H. destruct (performDNSLookup_effects st env H) as (r & E & F).
  unfold run. now rewrite F, E.
Qed.

Lemma performDNSLookup_rejects (st : State) (env : Env) :
  blank (domain st) = true \/ test domainRegex (domain st) = false ->
  performDNSLookup st env
  = [Toast (destructive "Error"
              (if blank (domain st) then "Please enter a domain name"
               else "Please enter a valid domain name"))].
Proof.
  intros H. unfold performDNSLookup. rewrite not_str_trim.
  destruct (blank (domain st)); [reflexivity|].
  destruct H as [H | H]; [discriminate|]. now rewrite H.
Qed.

(** C1, as stated, fails: two lookups of [example.com] whose draws are 0
    and 3/4 store different records. *)
Lemma lookup_determinism_counterexample :
  exists r1 r2,
    results (run performDNSLookup (state_of "example.com" "") (env_of 0))
    = Some r1 /\
    results (run performDNSLookup (state_of "example.com" "") (env_of (3 # 4)))
    = Some r2 /\
    DNSResults.records r1 <> DNSResults.records r2.
Proof.
  do 2 eexists. split; [reflexivity|]. split; [reflexivity|].
  discriminate.
Qed.

Lemma Qgtb_spec (x y : Q) :
  (Qgtb x y = true <-> (y < x)%Q) /\ (Qgtb x y = false <-> (x <= y)%Q).
Proof.
  unfold Qgtb. destruct (Qle_bool x y) eqn:E; simpl.
  - apply Qle_bool_iff in E. split; split; intros H;
      try discriminate; try reflexivity; try exact E.
    exfalso. now apply (Qlt_not_le y x).
  - assert (N : ~ (x <= y)%Q)
      by (intros L; apply Qle_bool_iff in L; congruence).
    split; split; intros H; try discriminate; try reflexivity.
    + now apply Qnot_le_lt.
    + contradiction.
Qed.

(** C1, amended: two lookups of the same accepted domain store records
    that agree on every type but CNAME; in each, CNAME holds the single
    record alias.example.com (ttl 3600) when the draw of that lookup is
    above one half and is empty otherwise; so the two records objects
    are identical exactly when the two draws are on the same side of
    one half. *)
Theorem lookup_determinism (st : State) (e1 e2 : Env) :
  accepted (domain st) ->
  exists r1 r2,
    results (run performDNSLookup st e1) = Some r1 /\
    results (run performDNSLookup st e2) = Some r2 /\
    (forall k, k <> lit "CNAME" ->
       obj_get k (DNSResults.records r1) = obj_get k (DNSResults.records r2)) /\
    ((1 # 2 < random e1)%Q ->
     obj_get (lit "CNAME") (DNSResults.records r1)
     = Some [rec "CNAME" "alias.example.com" 3600]) /\
    ((random e1 <= 1 # 2)%Q ->
     obj_get (lit "CNAME") (DNSResults.records r1) = Some []) /\
    ((1 # 2 < random e2)%Q ->
     obj_get (lit "CNAME") (DNSResults.records r2)
     = Some [rec "CNAME" "alias.example.com" 3600]) /\
    ((random e2 <= 1 # 2)%Q ->
     obj_get (lit "CNAME") (DNSResults.records r2) = Some []) /\
    (DNSResults.records r1 = DNSResults.records r2
     <-> ((1 # 2 < random e1)%Q <-> (1 # 2 < random e2)%Q)) /\
    (DNSResults.records r1 = DNSResults.records r2
     <-> Qgtb (random e1) (1 # 2) = Qgtb (random e2) (1 # 2)).
Proof.
  intros H. do 2 eexists.
  split; [rewrite performDNSLookup_stores by assumption;
          apply performDNSLookup_try_records|].
  split; [rewrite performDNSLookup_stores by assumption;
          apply performDNSLookup_try_records|].
  cbn [DNSResults.records].
  split; [intros k N; now rewrite !obj_get_set_other|].
  destruct (Qgtb_spec (random e1) (1 # 2)) as [T1 F1].
  destruct (Qgtb_spec (random e2) (1 # 2)) as [T2 F2].
  split; [intros L; apply (proj2 T1) in L; rewrite L; reflexivity|].
  split; [intros L; apply (proj2 F1) in L; rewrite L; reflexivity|].
  split; [intros L; apply (proj2 T2) in L; rewrite L; reflexivity|].
  split; [intros L; apply (proj2 F2) in L; rewrite L; reflexivity|].
  assert (C : obj_set (lit "CNAME")
                (if Qgtb (random e1) (1 # 2) then [cnameAlias] else [])
                (DNSResults.records (mockResults (domain st) e1))
              = obj_set (lit "CNAME")
                  (if Qgtb (random e2) (1 # 2) then [cnameAlias] else [])
                  (DNSResults.records (mockResults (domain st) e2))
              <-> Qgtb (random e1) (1 # 2) = Qgtb (random e2) (1 # 2)).
  { destruct (Qgtb (random e1) (1 # 2)), (Qgtb (random e2) (1 # 2));
      split; intro E; try reflexivity; vm_compute in E; discriminate E. }
  split; [|exact C].
  rewrite C, <- T1, <- T2.
  destruct (Qgtb (random e1) (1 # 2)), (Qgtb (random e2) (1 # 2));
    split; intros E;
    first [ reflexivity
          | discriminate E
          | split; intros X; discriminate X
          | destruct E as [E1 E2];
            first [discriminate (E1 eq_refl) | discriminate (E2 eq_refl)] ].
Qed.

Lemma lookup_determinism_witness :
  accepted (domain (state_of "example.com" "")) /\
  exists r1 r2,
    results (run performDNSLookup (state_of "example.com" "") (env_of (1 # 4)))
    = Some r1 /\
    results (run performDNSLookup (state_of "example.com" "") (env_of (7 # 8)))
    = Some r2 /\
    obj_get (lit "CNAME") (DNSResults.records r1) = Some [] /\
    obj_get (lit "CNAME") (DNSResults.records r2)
    = Some [rec "CNAME" "alias.example.com" 3600] /\
    obj_get (lit "MX") (DNSResults.records r1)
    = obj_get (lit "MX") (DNSResults.records r2).
Proof.
  assert (H : accepted (domain (state_of "example.com" "")))
    by (split; reflexivity).
  split; [exact H|].
  destruct (lookup_determinism (state_of "example.com" "")
              (env_of (1 # 4)) (env_of (7 # 8)) H)
    as (r1 & r2 & S1 & S2 & O & _ & C1 & C2 & _).
  exists r1, r2. split; [exact S1|]. split; [exact S2|].
  split; [apply C1; unfold Qle; simpl; lia|].
  split; [apply C2; unfold Qlt; simpl; lia|].
  apply O. discriminate.
Defined.

(** C3, as stated, fails: the lookup of [example.com] stores two A
    records, two MX records and two TXT records, not the single ones of
    the scenario. *)
Lemma lookup_example_counterexample :
  exists r,
    results (run performDNSLookup (state_of "example.com" "") (env_of 0))
    = Some r /\
    obj_get (lit "A") (DNSResults.records r)
    <> Some [rec "A" "93.184.216.34" 3600] /\
    obj_get (lit "MX") (DNSResults.records r)
    <> Some [rec "MX" "10 mail.example.com" 3600] /\
    forall t,
      obj_get (lit "TXT") (DNSResults.records r)
      <> Some [{| type := lit "TXT";
                  value := lit "v=spf1 include:_spf.google.com ~all";
                  ttl := t |}].
Proof.
  eexists. split; [reflexivity|].
  split; [intro E; vm_compute in E; discriminate|].
  split; [intro E; vm_compute in E; discriminate|].
  intros t E. vm_compute in E. discriminate.
Qed.

(** C3, amended: for the input domain [example.com] the lookup stores a
    result with the records A = 93.184.216.34 and 93.184.216.35 (ttl
    3600), AAAA = 2606:2800:220:1:248:1893:25c8:1946 (ttl 3600), MX =
    "10 mail.example.com" and "20 mail2.example.com" (ttl 3600), NS =
    ns1.example.com and ns2.example.com (ttl 86400), CNAME = empty, or
    alias.example.com (ttl 3600) when the draw is above one half, TXT =
    the SPF and the site-verification strings (ttl 3600); the only toast
    is the success toast. *)
Theorem lookup_example (st : State) (env : Env) :
  domain st = lit "example.com" ->
  exists r,
    performDNSLookup st env
    = [SetLoading true; Await 2000; SetResults r;
       Toast (plain (lit "DNS Lookup Complete")
                    (lit "Successfully retrieved DNS records"));
       SetLoading false] /\
    results (run performDNSLookup st env) = Some r /\
    DNSResults.domain r = lit "example.com" /\
    DNSResults.records r
    = [ (lit "A",
          [ rec "A" "93.184.216.34" 3600; rec "A" "93.184.216.35" 3600 ]);
        (lit "AAAA",
          [ rec "AAAA" "2606:2800:220:1:248:1893:25c8:1946" 3600 ]);
        (lit "MX",
          [ rec "MX" "10 mail.example.com" 3600;
            rec "MX" "20 mail2.example.com" 3600 ]);
        (lit "NS",
          [ rec "NS" "ns1.example.com" 86400;
            rec "NS" "ns2.example.com" 86400 ]);
        (lit "CNAME",
          if Qgtb (random env) (1 # 2) then [cnameAlias] else []);
        (lit "TXT",
          [ rec "TXT" "v=spf1 include:_spf.google.com ~all" 3600;
            rec "TXT" "google-site-verification=abc123def456" 3600 ]) ].
Proof.
  intros D.
  assert (H : accepted (domain st)) by (rewrite D; split; reflexivity).
  destruct (performDNSLookup_effects st env H) as (r & E & F).
  exists r. split; [exact F|].
  split; [now rewrite performDNSLookup_stores|].
  rewrite performDNSLookup_try_records in E. injection E as <-.
  split; [exact D|]. reflexivity.
Qed.

Lemma lookup_example_witness :
  domain (state_of "example.com" "") = lit "example.com" /\
  exists r,
    results (run performDNSLookup (state_of "example.com" "") (env_of (5 # 8)))
    = Some r /\
    obj_get (lit "CNAME") (DNSResults.records r) = Some [cnameAlias] /\
    obj_get (lit "A") (DNSResults.records r)
    = Some [ rec "A" "93.184.216.34" 3600; rec "A" "93.184.216.35" 3600 ].
Proof.
  split; [reflexivity|].
  destruct (lookup_example (state_of "example.com" "") (env_of (5 # 8)) eq_refl)
    as (r & _ & S & _ & R).
  exists r. split; [exact S|]. rewrite R. split; reflexivity.
Defined.

(** C4: for every accepted domain the lookup stores a result whose
    records object has exactly the six keys A, AAAA, MX, NS, CNAME and
    TXT, each once, whatever the draw. *)
Theorem lookup_six_keys (st : State) (env : Env) :
  accepted (domain st) ->
  exists r,
    results (run performDNSLookup st env) = Some r /\
    obj_keys (DNSResults.records r) = recordTypes /\
    forall k, In k recordTypes ->
      exists l, obj_get k (DNSResults.records r) = Some l.
Proof.
  intros H. eexists.
  split; [rewrite performDNSLookup_stores by assumption;
          apply performDNSLookup_try_records|].
  cbn [DNSResults.records].
  assert (K : obj_keys
                (obj_set (lit "CNAME")
                   (if Qgtb (random env) (1 # 2) then [cnameAlias] else [])
                   (DNSResults.records (mockResults (domain st) env)))
              = recordTypes).
  { rewrite obj_keys_set_present; [reflexivity|]. simpl. tauto. }
  split; [exact K|].
  intros k Hk.
  destruct (Qgtb (random env) (1 # 2));
    simpl in Hk; decompose [or] Hk; subst; try contradiction;
    eexists; reflexivity.
Qed.

Lemma lookup_six_keys_witness :
  accepted (domain (state_of "example.com" "")) /\
  exists r,
    results (run performDNSLookup (state_of "example.com" "") (env_of (7 # 8)))
    = Some r /\
    obj_keys (DNSResults.records r) = recordTypes /\
    forall k, In k recordTypes ->
      exists l, obj_get k (DNSResults.records r) = Some l.
Proof.
  assert (H : accepted (domain (state_of "example.com" "")))
    by (split; reflexivity).
  split; [exact H|].
  exact (lookup_six_keys (state_of "example.com" "") (env_of (7 # 8)) H).
Defined.

(** C7: when the input is blank (empty or white space only) or fails the
    domain pattern, the lookup issues one destructive toast and nothing
    else: no loading flag, no wait, no clock or random read, no result;
    the state after the call is the state before it. *)
Theorem lookup_rejects_invalid (st : State) (env : Env) :
  blank (domain st) = true \/ test domainRegex (domain st) = false ->
  (exists msg,
     performDNSLookup st env = [Toast msg] /\
     variant msg = Some (lit "destructive")) /\
  run performDNSLookup st env = st /\
  results (run performDNSLookup st env) = results st.
Proof.
  intros H. pose proof (performDNSLookup_rejects st env H) as E.
  split; [eexists; split; [exact E | reflexivity]|].
  unfold run. rewrite E. split; reflexivity.
Qed.

Lemma lookup_rejects_invalid_witness :
  (blank (domain (state_of "localhost" "")) = true
   \/ test domainRegex (domain (state_of "localhost" "")) = false) /\
  (exists msg,
     performDNSLookup (state_of "localhost" "") (env_of (3 # 4)) = [Toast msg] /\
     variant msg = Some (lit "destructive")) /\
  run performDNSLookup (state_of "localhost" "") (env_of (3 # 4))
  = state_of "localhost" "" /\
  results (run performDNSLookup (state_of "localhost" "") (env_of (3 # 4)))
  = results (state_of "localhost" "").
Proof.
  assert (H : blank (domain (state_of "localhost" "")) = true
              \/ test domainRegex (domain (state_of "localhost" "")) = false)
    by (right; reflexivity).
  split; [exact H|].
  exact (lookup_rejects_invalid (state_of "localhost" "") (env_of (3 # 4)) H).
Defined.

(* ================================================================== *)
(** ** The exports *)

Lemma map_injective {A B : Type} (f : A -> B) :
  (forall x y, f x = f y -> x = y) ->
  forall l l', map f l = map f l' -> l = l'.
Proof.
  intros I l. induction l as [|a l IH]; intros [|b l'] E;
    try discriminate; [reflexivity|].
  simpl in E. injection E as E1 E2. f_equal; auto.
Qed.

Lemma js_of_DNSRecord_inj (r r' : DNSRecord) :
  js_of_DNSRecord r = js_of_DNSRecord r' -> r = r'.
Proof.
  destruct r as [t v [n|]], r' as [t' v' [n'|]]; unfold js_of_DNSRecord;
    simpl; intros E; injection E; intros; subst;
    try discriminate; reflexivity.
Qed.

(** The object view of the records keeps every key, record and field. *)
Lemma js_of_records_inj (o o' : obj (list DNSRecord)) :
  js_of_records o = js_of_records o' -> o = o'.
Proof.
  unfold js_of_records. intros E. injection E as E.
  revert E. apply map_injective.
  intros [k l] [k' l'] F. simpl in F. injection F as -> F.
  f_equal. revert F. apply map_injective. exact js_of_DNSRecord_inj.
Qed.

(** C8: for a stored lookup result the export downloads one object: the
    result's own properties domain, timestamp and records with their
    values as they are, followed by userAgent and toolInfo; the records
    value determines the stored records, and the export changes no
    state. *)
Theorem export_frame (st : State) (env : Env) (r : DNSResults.t) :
  results st = Some r ->
  (exists fname,
     exportResults st env = [Download fname (JObj (exportData r env))]) /\
  exportData r env
  = props_of_DNSResults r
    ++ [ (lit "userAgent", JStr (userAgent env));
         (lit "toolInfo", JStr (lit "VRCyber Guard DNS Lookup Tool")) ] /\
  obj_keys (exportData r env)
  = map lit ["domain"; "timestamp"; "records"; "userAgent"; "toolInfo"]%string /\
  obj_get (lit "domain") (exportData r env) = Some (JStr (DNSResults.domain r)) /\
  obj_get (lit "timestamp") (exportData r env)
  = Some (JStr (DNSResults.timestamp r)) /\
  obj_get (lit "records") (exportData r env)
  = Some (js_of_records (DNSResults.records r)) /\
  (forall o, obj_get (lit "records") (exportData r env) = Some (js_of_records o) ->
             o = DNSResults.records r) /\
  run exportResults st env = st.
Proof.
  intros H.
  split; [unfold exportResults; rewrite H; eexists; reflexivity|].
  repeat (split; [reflexivity|]).
  split.
  - intros o E. change (Some (js_of_records (DNSResults.records r))
                        = Some (js_of_records o)) in E.
    symmetry. apply js_of_records_inj. congruence.
  - unfold run, exportResults. rewrite H. reflexivity.
Qed.

Lemma export_frame_witness :
  results (apply_effect (state_of "example.com" "")
             (SetResults (mockResults (lit "example.com") (env_of 0))))
  = Some (mockResults (lit "example.com") (env_of 0)) /\
  obj_keys (exportData (mockResults (lit "example.com") (env_of 0)) (env_of 0))
  = map lit ["domain"; "timestamp"; "records"; "userAgent"; "toolInfo"]%string /\
  exists fname,
    exportResults
      (apply_effect (state_of "example.com" "")
         (SetResults (mockResults (lit "example.com") (env_of 0))))
      (env_of 0)
    = [Download fname
         (JObj (exportData (mockResults (lit "example.com") (env_of 0))
                  (env_of 0)))] /\
    fname = lit "dns-lookup-example.com-2024-05-01.json".
Proof.
  split; [reflexivity|].
  destruct (export_frame
              (apply_effect (state_of "example.com" "")
                 (SetResults (mockResults (lit "example.com") (env_of 0))))
              (env_of 0) (mockResults (lit "example.com") (env_of 0)) eq_refl)
    as ([fname F] & _ & K & _).
  split; [exact K|].
  exists fname. split; [exact F|].
  injection F as F. symmetry. exact F.
Defined.

(** Without a stored result the exports do nothing. *)
Lemma export_nothing (st : State) (env : Env) :
  (results st = None -> exportResults st env = []) /\
  (subdomainResults st = None -> exportSubdomainResults st env = []).
Proof.
  split; intros H; [unfold exportResults | unfold exportSubdomainResults];
    now rewrite H.
Qed.

(** The subdomain export has the same shape. *)
Lemma exportSubdomainData_frame (r : SubdomainResult.t) (env : Env) :
  exportSubdomainData r env
  = props_of_SubdomainResult r
    ++ [ (lit "userAgent", JStr (userAgent env));
         (lit "toolInfo",
           JStr (lit "VR-Cyber-Guard DNS Lookup Tool - Subdomain Scanner")) ].
Proof. reflexivity. Qed.

(* ================================================================== *)
(** ** The domain pattern and white space *)

Ltac chars_to_prop :=
  unfold hostChar, letter, range, isChar, code, isWhiteSpace in *;
  simpl N_of_ascii in *;
  repeat rewrite ?orb_true_iff, ?andb_true_iff, ?orb_false_iff,
    ?andb_false_iff, ?N.leb_le, ?N.eqb_eq, ?N.leb_gt, ?N.eqb_neq in *.

Lemma letter_hostChar (c : N) : letter c = true -> hostChar c = true.
Proof. intros H. chars_to_prop. tauto. Qed.

Lemma hostChar_not_space (c : N) : hostChar c = true -> isWhiteSpace c = false.
Proof. intros H. chars_to_prop. lia. Qed.

Lemma pattern_chars (s : jsstring) :
  test domainRegex s = true -> Forall (fun c => hostChar c = true) s.
Proof.
  intros H. apply domainRegex_spec in H.
  destruct H as (host & tld & -> & _ & Hh & _ & Ht).
  apply Forall_app. split.
  - apply Forall_forall. intros c Hc.
    now apply (proj1 (forallb_forall hostChar host) Hh).
  - constructor; [reflexivity|].
    apply Forall_forall. intros c Hc. apply letter_hostChar.
    now apply (proj1 (forallb_forall letter tld) Ht).
Qed.

Lemma trimStart_noop (s : jsstring) :
  (forall c, In c s -> isWhiteSpace c = false) -> trimStart s = s.
Proof.
  destruct s as [|c s]; [reflexivity|]. intros H. simpl.
  now rewrite (H c (or_introl eq_refl)).
Qed.

Lemma trim_noop (s : jsstring) :
  (forall c, In c s -> isWhiteSpace c = false) -> trim s = s.
Proof.
  intros H. unfold trim, trimEnd. rewrite (trimStart_noop s H).
  rewrite trimStart_noop; [apply rev_involutive|].
  intros c Hc. apply H. now apply in_rev.
Qed.

Lemma split_head_found (sep : N) (d rest : jsstring) :
  ~ In sep d -> split_head sep (d ++ sep :: rest) = d.
Proof.
  induction d as [|c d IH]; simpl; intros H.
  - now rewrite N.eqb_refl.
  - destruct (c =? sep)%N eqn:E.
    + apply N.eqb_eq in E. tauto.
    + f_equal. apply IH. tauto.
Qed.

Lemma split_head_missing (sep : N) (s : jsstring) :
  ~ In sep s -> split_head sep s = s.
Proof.
  induction s as [|c s IH]; simpl; intros H; [reflexivity|].
  destruct (c =? sep)%N eqn:E.
  - apply N.eqb_eq in E. tauto.
  - f_equal. apply IH. tauto.
Qed.

Lemma pattern_not_blank (s : jsstring) :
  test domainRegex s = true -> blank s = false.
Proof.
  intros H. destruct s as [|c s]; [discriminate H|].
  apply pattern_chars in H. inversion H; subst.
  unfold blank. simpl. now rewrite hostChar_not_space.
Qed.

(** The language of the pattern [/^[a-zA-Z0-9.-]+\.[a-zA-Z]{2,}$/] that
    guards the lookup: the strings made of a non-empty run of letters,
    digits, dots and hyphens, a dot, and two or more letters. *)
Theorem domain_pattern_language (s : jsstring) :
  test domainRegex s = true <->
  exists host tld,
    s = host ++ code "." :: tld /\
    host <> [] /\ forallb hostChar host = true /\
    (2 <= length tld)%nat /\ forallb letter tld = true.
Proof. exact (domainRegex_spec s). Qed.

(** A string that passes the pattern is never blank and has no white
    space at all, so the first guard of the lookup only selects the
    message, and trimming such a string changes nothing; all its code
    units are letters, digits, dots or hyphens. *)
Theorem pattern_excludes_blank (s : jsstring) :
  test domainRegex s = true ->
  blank s = false /\ trim s = s /\ Forall (fun c => hostChar c = true) s.
Proof.
  intros H. split; [now apply pattern_not_blank|].
  pose proof (pattern_chars s H) as C. split; [|exact C].
  apply trim_noop. intros c Hc. apply hostChar_not_space.
  revert c Hc. now apply Forall_forall.
Qed.

Lemma pattern_excludes_blank_witness :
  test domainRegex (lit "mail.example.org") = true /\
  blank (lit "mail.example.org") = false /\
  trim (lit "mail.example.org") = lit "mail.example.org" /\
  Forall (fun c => hostChar c = true) (lit "mail.example.org").
Proof.
  split; [reflexivity|].
  exact (pattern_excludes_blank (lit "mail.example.org") eq_refl).
Defined.

(* ================================================================== *)
(** ** What the handlers leave alone *)

(** Whatever the input, a lookup run to completion leaves both input
    fields and the stored scan result as they were; it ends with the
    loading flag off when the input passes the pattern, and does not
    touch the flag or the stored lookup result when it does not. *)
Theorem lookup_frame (st : State) (env : Env) :
  domain (run performDNSLookup st env) = domain st /\
  subdomainDomain (run performDNSLookup st env) = subdomainDomain st /\
  subdomainResults (run performDNSLookup st env) = subdomainResults st /\
  loading (run performDNSLookup st env)
  = loading st && negb (test domainRegex (domain st)) /\
  (test domainRegex (domain st) = false ->
   results (run performDNSLookup st env) = results st).
Proof.
  destruct (test domainRegex (domain st)) eqn:T.
  - assert (A : accepted (domain st))
      by (split; [now apply pattern_not_blank | exact T]).
    destruct (performDNSLookup_effects st env A) as (r & _ & F).
    unfold run. rewrite F. simpl. rewrite andb_false_r.
    repeat split; discriminate.
  - unfold run. rewrite performDNSLookup_rejects by now right.
    simpl. rewrite andb_true_r. repeat split.
Qed.

(** Whatever the input, a scan run to completion leaves both input
    fields and the stored lookup result as they were; it ends with the
    loading flag off when the input is not blank, and does not touch the
    flag or the stored scan result when it is. *)
Theorem scan_frame (st : State) (env : Env) :
  domain (run findSubdomains st env) = domain st /\
  subdomainDomain (run findSubdomains st env) = subdomainDomain st /\
  results (run findSubdomains st env) = results st /\
  loading (run findSubdomains st env)
  = loading st && blank (subdomainDomain st) /\
  (blank (subdomainDomain st) = true ->
   subdomainResults (run findSubdomains st env) = subdomainResults st).
Proof.
  unfold run, findSubdomains. rewrite not_str_trim.
  destruct (blank (subdomainDomain st)); simpl.
  - rewrite andb_true_r. repeat split.
  - rewrite andb_false_r. repeat split. discriminate.
Qed.

(** A blank scan input (empty or white space only) gets one destructive
    toast and nothing else: no loading flag, no wait, no result; the
    state after the call is the state before it. *)
Theorem scan_rejects_blank (st : State) (env : Env) :
  blank (subdomainDomain st) = true ->
  (exists msg,
     findSubdomains st env = [Toast msg] /\
     variant msg = Some (lit "destructive") /\
     description msg = lit "Please enter a domain to scan") /\
  run findSubdomains st env = st.
Proof.
  intros H. pose proof (findSubdomains_blank st env H) as E.
  split; [eexists; split; [exact E | split; reflexivity]|].
  unfold run. now rewrite E.
Qed.

Lemma scan_rejects_blank_witness :
  blank (subdomainDomain (state_of "example.com" "   ")) = true /\
  run findSubdomains (state_of "example.com" "   ") (env_of (1 # 2))
  = state_of "example.com" "   ".
Proof.
  split; [reflexivity|].
  exact (proj2 (scan_rejects_blank (state_of "example.com" "   ")
                  (env_of (1 # 2)) eq_refl)).
Defined.

(** The scan has no pattern guard and does not trim: a non-blank string
    that the lookup rejects for its shape is scanned as typed.  With the
    same string in both fields, the lookup stores nothing while the scan
    stores a result whose domain is the raw string and whose first fqdn
    is "www." followed by it. *)
Theorem scan_skips_pattern (st : State) (env : Env) :
  subdomainDomain st = domain st ->
  blank (domain st) = false ->
  test domainRegex (domain st) = false ->
  results (run performDNSLookup st env) = results st /\
  exists res,
    subdomainResults (run findSubdomains st env) = Some res /\
    SubdomainResult.domain res = domain st /\
    (valid_random env ->
     exists rest, fqdns res = (lit "www." ++ domain st) :: rest).
Proof.
  intros E B T. split.
  - unfold run. rewrite performDNSLookup_rejects by now right. reflexivity.
  - eexists. split; [apply findSubdomains_stores; now rewrite E|].
    split; [exact E|]. intros Hr. unfold fqdns. simpl.
    destruct (foundSubdomains_firstn (subdomainDomain st) env Hr)
      as (k & Hk & ->).
    rewrite E. bound_cases k Hk; eexists; reflexivity.
Qed.

Lemma scan_skips_pattern_witness :
  test domainRegex (domain (state_of " my host/" " my host/")) = false /\
  exists res,
    subdomainResults
      (run findSubdomains (state_of " my host/" " my host/") (env_of 0))
    = Some res /\
    SubdomainResult.domain res = lit " my host/" /\
    fqdns res = map lit ["www. my host/"; "mail. my host/"; "ftp. my host/";
                         "api. my host/"]%string.
Proof.
  split; [reflexivity|].
  destruct (scan_skips_pattern (state_of " my host/" " my host/") (env_of 0)
              eq_refl eq_refl eq_refl) as (_ & res & S & D & _).
  exists res. split; [exact S|]. split; [exact D|].
  injection S as <-. reflexivity.
Defined.

(* ================================================================== *)
(** ** What the stored results always satisfy *)

Lemma try_records_explicit (c : list DNSRecord) (d : jsstring) (env : Env) :
  obj_set (lit "CNAME") c (DNSResults.records (mockResults d env))
  = [ (lit "A",
        [ rec "A" "93.184.216.34" 3600; rec "A" "93.184.216.35" 3600 ]);
      (lit "AAAA",
        [ rec "AAAA" "2606:2800:220:1:248:1893:25c8:1946" 3600 ]);
      (lit "MX",
        [ rec "MX" "10 mail.example.com" 3600;
          rec "MX" "20 mail2.example.com" 3600 ]);
      (lit "NS",
        [ rec "NS" "ns1.example.com" 86400;
          rec "NS" "ns2.example.com" 86400 ]);
      (lit "CNAME", c);
      (lit "TXT",
        [ rec "TXT" "v=spf1 include:_spf.google.com ~all" 3600;
          rec "TXT" "google-site-verification=abc123def456" 3600 ]) ].
Proof. reflexivity. Qed.

Ltac get_cases H :=
  repeat match type of H with
  | (if jsstring_eqb ?k ?x then _ else _) = Some _ =>
      let E := fresh "E" in
      destruct (jsstring_eqb k x) eqn:E;
      [ apply jsstring_eqb_eq in E; subst k; injection H as <-;
        repeat (apply Forall_cons;
                [split; [reflexivity | eexists; split; [reflexivity | lia]]|]);
        apply Forall_nil
      | ]
  end;
  try discriminate H.

Lemma lookup_result_good (d : jsstring) (env : Env) (r : DNSResults.t) :
  test domainRegex d = true ->
  performDNSLookup_try d env = Some r ->
  good_results r.
Proof.
  intros T E. rewrite performDNSLookup_try_records in E.
  rewrite try_records_explicit in E. injection E as <-.
  unfold good_results. cbn [DNSResults.domain DNSResults.records].
  split; [exact T|]. split; [reflexivity|].
  intros k l H. cbn [obj_get] in H.
  destruct (Qgtb (random env) (1 # 2)); get_cases H.
Qed.

Lemma scan_result_good (d : jsstring) (env : Env) :
  blank d = false -> valid_random env -> good_scan (scanResult d env).
Proof.
  intros B Hr. unfold good_scan, fqdns. simpl.
  destruct (foundSubdomains_firstn d env Hr) as (k & Hk & ->).
  split; [exact B|].
  bound_cases k Hk; simpl; repeat split; lia.
Qed.

Lemma apply_keeps_ok (st : State) (e : Effect) :
  state_ok st ->
  (forall r, e = SetResults r -> good_results r) ->
  (forall r, e = SetSubdomainResults r -> good_scan r) ->
  state_ok (apply_effect st e).
Proof.
  intros [H1 H2] G1 G2.
  destruct e; split; simpl; intros r E; auto; injection E as <-; auto.
Qed.

Lemma lookup_effect_cases (st : State) (env : Env) (e : Effect) :
  In e (performDNSLookup st env) ->
  (exists r, e = SetResults r /\ good_results r) \/
  (exists t, e = Toast t) \/ (exists b, e = SetLoading b) \/
  (exists n, e = Await n).
Proof.
  intros H. destruct (test domainRegex (domain st)) eqn:T.
  - assert (A : accepted (domain st))
      by (split; [now apply pattern_not_blank | exact T]).
    destruct (performDNSLookup_effects st env A) as (r & E & F).
    rewrite F in H. simpl in H.
    destruct H as [H | [H | [H | [H | [H | []]]]]]; subst e; eauto.
    left. exists r. split; [reflexivity|]. eapply lookup_result_good; eauto.
  - rewrite performDNSLookup_rejects in H by now right.
    destruct H as [H | []]. subst e. eauto.
Qed.

Lemma scan_effect_cases (st : State) (env : Env) (e : Effect) :
  valid_random env ->
  In e (findSubdomains st env) ->
  (exists r, e = SetSubdomainResults r /\ good_scan r) \/
  (exists t, e = Toast t) \/ (exists b, e = SetLoading b) \/
  (exists n, e = Await n).
Proof.
  intros Hr H. unfold findSubdomains in H. rewrite not_str_trim in H.
  destruct (blank (subdomainDomain st)) eqn:B; simpl in H.
  - destruct H as [H | []]. subst e. eauto.
  - destruct H as [H | [H | [H | [H | [H | []]]]]]; subst e; eauto.
    left. eexists. split; [reflexivity|]. now apply scan_result_good.
Qed.

Lemma handler_effect_keeps_ok (st : State) (e : Effect) :
  handler_effect e -> state_ok st -> state_ok (apply_effect st e).
Proof.
  intros He Hs.
  assert (C : (exists r, e = SetResults r /\ good_results r) \/
              (exists r, e = SetSubdomainResults r /\ good_scan r) \/
              (exists t, e = Toast t) \/ (exists b, e = SetLoading b) \/
              (exists n, e = Await n) \/ (exists f v, e = Download f v)).
  { destruct He as [s env e Hr H | s env e Hr H | key s env e Hr H
                    | key s env e Hr H | s env e H | s env e H].
    - apply lookup_effect_cases in H. intuition.
    - apply scan_effect_cases in H; intuition.
    - unfold onKeyPressDomain in H.
      destruct (jsstring_eqb key (lit "Enter")); [|destruct H].
      apply lookup_effect_cases in H. intuition.
    - unfold onKeyPressSubdomain in H.
      destruct (jsstring_eqb key (lit "Enter")); [|destruct H].
      apply scan_effect_cases in H; intuition.
    - unfold exportResults in H. destruct (results s); [|destruct H].
      destruct H as [H | []]. subst e. eauto 8.
    - unfold exportSubdomainResults in H.
      destruct (subdomainResults s); [|destruct H].
      destruct H as [H | []]. subst e. eauto 8. }
  apply apply_keeps_ok; [exact Hs | |]; intros r E; subst e;
    destruct C as [(r' & E & G) | [(r' & E & G) | [(t & E) | [(b & E)
                   | [(n & E) | (f & v & E)]]]]];
    try discriminate E; injection E as <-; exact G.
Qed.

Lemma reachable_ok (st : State) : reachable st -> state_ok st.
Proof.
  induction 1 as [| v st _ IH | v st _ IH | e st _ IH He].
  - split; intros r E; discriminate E.
  - exact IH.
  - exact IH.
  - now apply handler_effect_keeps_ok.
Qed.

Lemma reachable_fold (l : list Effect) (st : State) :
  (forall e, In e l -> handler_effect e) ->
  reachable st -> reachable (fold_left apply_effect l st).
Proof.
  revert st. induction l as [|e l IH]; intros st H R; simpl.
  - exact R.
  - apply IH.
    + intros e' He'. apply H. now right.
    + apply reach_effect; [exact R|]. apply H. now left.
Qed.

Lemma reachable_lookup (st : State) (env : Env) :
  valid_random env -> reachable st ->
  reachable (run performDNSLookup st env).
Proof.
  intros Hr R. apply reachable_fold; [|exact R].
  intros e He. now apply (he_lookup st env).
Qed.

Lemma reachable_scan (st : State) (env : Env) :
  valid_random env -> reachable st ->
  reachable (run findSubdomains st env).
Proof.
  intros Hr R. apply reachable_fold; [|exact R].
  intros e He. now apply (he_scan st env).
Qed.

(** In every state the page can reach (typing, Enter keys, lookups,
    scans and exports, their effects interleaved in any order), a stored
    lookup result has a domain that passes the pattern, exactly the six
    record keys, and under each key only records of that type with a
    positive ttl; a stored scan result has a non-blank domain, a
    [totalFound] equal to the number of its subdomains and between 4 and
    8, and as fqdns the first [totalFound] candidates of its own
    domain. *)
Theorem session_invariant (st : State) : reachable st -> state_ok st.
Proof.
  intros R. induction R as [| v st _ IH | v st _ IH | e st _ IH He].
  - split; intros r E; discriminate E.
  - destruct IH as [I1 I2]. split; [exact I1 | exact I2].
  - destruct IH as [I1 I2]. split; [exact I1 | exact I2].
  - apply handler_effect_keeps_ok; assumption.
Qed.

Lemma session_invariant_witness :
  reachable
    (run findSubdomains
       (setSubdomainDomain (lit "example.org")
          (run performDNSLookup (setDomain (lit "example.com") initialState)
             (env_of (7 # 8))))
       (env_of (1 # 2))) /\
  state_ok
    (run findSubdomains
       (setSubdomainDomain (lit "example.org")
          (run performDNSLookup (setDomain (lit "example.com") initialState)
             (env_of (7 # 8))))
       (env_of (1 # 2))).
Proof.
  assert (R : reachable
                (run findSubdomains
                   (setSubdomainDomain (lit "example.org")
                      (run performDNSLookup
                         (setDomain (lit "example.com") initialState)
                         (env_of (7 # 8))))
                   (env_of (1 # 2)))).
  { apply reachable_scan; [exact valid_random_half|].
    apply reach_setSubdomainDomain.
    apply reachable_lookup; [exact valid_random_7_8|].
    apply reach_setDomain. exact reach_init. }
  split; [exact R|]. exact (session_invariant _ R).
Defined.

(* ================================================================== *)
(** ** The results panel *)

Lemma obj_get_present {V : Type} (k : jsstring) (o : obj V) :
  In k (obj_keys o) -> exists v, obj_get k o = Some v.
Proof.
  induction o as [|[k' v'] o IH]; simpl; intros H; [tauto|].
  destruct (jsstring_eqb k k') eqn:E; [eauto|].
  destruct H as [H | H]; [|auto].
  subst k'. assert (R : jsstring_eqb k k = true) by now apply jsstring_eqb_eq.
  congruence.
Qed.

Lemma section_defined (title key description : string) (r : DNSResults.t) :
  good_results r ->
  In (lit key) recordTypes ->
  exists l,
    obj_get (lit key) (DNSResults.records r) = Some l /\
    section title key description (DNSResults.records r)
    = Some (RecordSection (lit title) l (lit description)) /\
    Forall (fun rc => exists n : Z, ttl rc = Some (int n) /\ (0 < n)%Z) l.
Proof.
  intros (_ & K & G) Hk.
  destruct (obj_get_present (lit key) (DNSResults.records r)) as [l E];
    [now rewrite K|].
  exists l. split; [exact E|]. split; [unfold section; now rewrite E|].
  eapply Forall_impl; [|exact (G _ _ E)]. simpl. tauto.
Qed.

Lemma record_section_labels (title description : jsstring)
  (l : list DNSRecord) :
  Forall (fun rc => exists n : Z, ttl rc = Some (int n) /\ (0 < n)%Z) l ->
  match secBody (RecordSection title l description) with
  | Rows rows =>
      rows <> [] /\
      secBadge (RecordSection title l description) = length rows /\
      Forall (fun row => exists n : Z, rowTtl row = TtlLabel (int n) /\ (0 < n)%Z) rows
  | Message _ => secBadge (RecordSection title l description) = 0%nat
  end.
Proof.
  intros H. destruct l as [|rc l]; simpl; [reflexivity|].
  split; [discriminate|]. split; [now rewrite length_map|].
  change (Forall (fun row => exists n : Z, rowTtl row = TtlLabel (int n) /\ (0 < n)%Z)
            (map recordRow (rc :: l))).
  apply Forall_map. eapply Forall_impl; [|exact H].
  intros a (n & E & P). exists n. split; [|exact P].
  unfold recordRow, ttlCell. simpl. rewrite E.
  destruct (falsy (int n)) eqn:Z0; [|reflexivity].
  apply Qeq_bool_eq in Z0. unfold Qeq in Z0. simpl in Z0. lia.
Qed.

Ltac six_sections G :=
  destruct (section_defined "A Records" "A"
              "IPv4 addresses for this domain" _ G) as (lA & _ & SA & FA);
    [simpl; tauto|];
  destruct (section_defined "AAAA Records" "AAAA"
              "IPv6 addresses for this domain" _ G) as (lAAAA & _ & SAAAA & FAAAA);
    [simpl; tauto|];
  destruct (section_defined "MX Records" "MX"
              "Mail exchange servers" _ G) as (lMX & _ & SMX & FMX);
    [simpl; tauto|];
  destruct (section_defined "NS Records" "NS"
              "Authoritative name servers" _ G) as (lNS & _ & SNS & FNS);
    [simpl; tauto|];
  destruct (section_defined "CNAME Records" "CNAME"
              "Canonical name aliases" _ G) as (lCNAME & _ & SCNAME & FCNAME);
    [simpl; tauto|];
  destruct (section_defined "TXT Records" "TXT"
              "Text records (SPF, DKIM, verification)" _ G)
    as (lTXT & _ & STXT & FTXT);
    [simpl; tauto|].

(** Rendering the results column never throws in a state the page can
    reach: whenever a lookup result is shown, each of the six record
    lists it reads is there. *)
Theorem render_never_throws (st : State) :
  reachable st -> exists p, render st = Some p.
Proof.
  intros R. destruct (reachable_ok st R) as [G1 _]. unfold render.
  destruct (subdomainResults st) as [s|]; [eauto|].
  destruct (results st) as [r|]; [|eauto].
  specialize (G1 r eq_refl). six_sections G1.
  cbv zeta. rewrite SA, SAAAA, SMX, SNS, SCNAME, STXT. simpl. eauto.
Qed.

Lemma render_never_throws_witness :
  reachable
    (run performDNSLookup (setDomain (lit "example.com") initialState)
       (env_of (7 # 8))) /\
  exists p,
    render
      (run performDNSLookup (setDomain (lit "example.com") initialState)
         (env_of (7 # 8)))
    = Some p.
Proof.
  assert (R : reachable
                (run performDNSLookup
                   (setDomain (lit "example.com") initialState)
                   (env_of (7 # 8)))).
  { apply reachable_lookup; [exact valid_random_7_8|].
    apply reach_setDomain. exact reach_init. }
  split; [exact R|]. exact (render_never_throws _ R).
Defined.

(** When the column shows a lookup result in a reachable state, the
    domain in its heading passes the pattern, the six sections come in
    the order A, AAAA, MX, NS, CNAME, TXT, each badge is the number of
    rows of its section (0 with the "no records" message), and every
    row carries a TTL label with a positive number: no row shows a bare
    0 or lacks the label. *)
Theorem dns_panel_consistent (st : State) (d ts : jsstring)
  (secs : list SectionView) :
  reachable st ->
  render st = Some (DNSPanel d ts secs) ->
  test domainRegex d = true /\
  map secTitle secs
  = map lit ["A Records"; "AAAA Records"; "MX Records"; "NS Records";
             "CNAME Records"; "TXT Records"]%string /\
  Forall (fun s =>
            match secBody s with
            | Rows rows =>
                rows <> [] /\ secBadge s = length rows /\
                Forall (fun row => exists n : Z, rowTtl row = TtlLabel (int n) /\ (0 < n)%Z)
                       rows
            | Message _ => secBadge s = 0%nat
            end) secs.
Proof.
  intros R H. destruct (reachable_ok st R) as [G1 _]. unfold render in H.
  destruct (subdomainResults st) as [s|]; [discriminate H|].
  destruct (results st) as [r|]; [|discriminate H].
  specialize (G1 r eq_refl). six_sections G1.
  cbv zeta in H. rewrite SA, SAAAA, SMX, SNS, SCNAME, STXT in H.
  simpl in H. injection H as <- <- <-.
  split; [exact (proj1 G1)|]. split; [reflexivity|].
  repeat (apply Forall_cons; [now apply record_section_labels|]).
  apply Forall_nil.
Qed.

Lemma dns_panel_consistent_witness :
  exists d ts secs,
    render
      (run performDNSLookup (setDomain (lit "example.com") initialState)
         (env_of (1 # 2)))
    = Some (DNSPanel d ts secs) /\
    test domainRegex d = true /\
    map secBadge secs = [2; 1; 2; 2; 0; 2]%nat.
Proof.
  assert (R : reachable
                (run performDNSLookup
                   (setDomain (lit "example.com") initialState)
                   (env_of (1 # 2)))).
  { apply reachable_lookup; [exact valid_random_half|].
    apply reach_setDomain. exact reach_init. }
  do 3 eexists. split; [reflexivity|].
  split; [|reflexivity].
  exact (proj1 (dns_panel_consistent _ _ _ _ R eq_refl)).
Defined.

(** When the column shows a scan result in a reachable state, the
    "Found" badge is the number of rows listed, between 4 and 8, the
    target domain is not blank, and the rows name the first candidates
    (www, mail, ftp, api, ...) of the target domain, in that order. *)
Theorem subdomain_panel_consistent (st : State) (n : nat) (t : jsstring)
  (rows : list SubdomainRow) :
  reachable st ->
  render st = Some (SubdomainPanel n t rows) ->
  n = length rows /\ (4 <= n <= 8)%nat /\ blank t = false /\
  map subName rows = firstn n (map (candidate t) candidateLabels).
Proof.
  intros R H. destruct (reachable_ok st R) as [_ G2]. unfold render in H.
  destruct (subdomainResults st) as [s|].
  - injection H as <- <- <-.
    destruct (G2 s eq_refl) as (B & L & C & F).
    split; [now rewrite length_map|]. split; [exact C|]. split; [exact B|].
    rewrite <- F. unfold fqdns. now rewrite map_map.
  - destruct (results st) as [r|]; [|discriminate H].
    destruct (sequence _); discriminate H.
Qed.

Lemma subdomain_panel_consistent_witness :
  exists n t rows,
    render
      (run findSubdomains (setSubdomainDomain (lit "example.org") initialState)
         (env_of (1 # 2)))
    = Some (SubdomainPanel n t rows) /\
    n = 7%nat /\ n = length rows /\ t = lit "example.org".
Proof.
  assert (R : reachable
                (run findSubdomains
                   (setSubdomainDomain (lit "example.org") initialState)
                   (env_of (1 # 2)))).
  { apply reachable_scan; [exact valid_random_half|].
    apply reach_setSubdomainDomain. exact reach_init. }
  do 3 eexists. split; [reflexivity|]. split; [reflexivity|].
  split; [|reflexivity].
  exact (proj1 (subdomain_panel_consistent _ _ _ _ R eq_refl)).
Defined.

(** Once a scan result is stored the column keeps showing it: a later
    lookup of an accepted domain stores its result, yet the column
    renders exactly as before the lookup, with the scan. *)
Theorem panel_prefers_scan (st : State) (env : Env) (s : SubdomainResult.t) :
  subdomainResults st = Some s ->
  accepted (domain st) ->
  (exists r,
     results (run performDNSLookup st env) = Some r /\
     DNSResults.domain r = domain st) /\
  render (run performDNSLookup st env) = render st /\
  exists rows,
    render st = Some (SubdomainPanel (SubdomainResult.totalFound s)
                        (SubdomainResult.domain s) rows).
Proof.
  intros S A.
  destruct (performDNSLookup_effects st env A) as (r & E & F).
  assert (S' : subdomainResults (run performDNSLookup st env) = Some s)
    by (unfold run; rewrite F; exact S).
  split.
  - exists r. split; [unfold run; now rewrite F|].
    rewrite performDNSLookup_try_records in E. now injection E as <-.
  - unfold render. rewrite S', S. split; [reflexivity|]. eauto.
Qed.

Lemma panel_prefers_scan_witness :
  exists s rows,
    subdomainResults
      (run findSubdomains (state_of "example.com" "example.org") (env_of 0))
    = Some s /\
    render
      (run performDNSLookup
         (run findSubdomains (state_of "example.com" "example.org") (env_of 0))
         (env_of (7 # 8)))
    = Some (SubdomainPanel 4 (lit "example.org") rows) /\
    render
      (run performDNSLookup
         (run findSubdomains (state_of "example.com" "example.org") (env_of 0))
         (env_of (7 # 8)))
    = render
        (run findSubdomains (state_of "example.com" "example.org") (env_of 0)).
Proof.
  do 2 eexists. split; [reflexivity|]. split; [reflexivity|].
  exact (proj1 (proj2 (panel_prefers_scan
                         (run findSubdomains
                            (state_of "example.com" "example.org") (env_of 0))
                         (env_of (7 # 8)) _ eq_refl
                         (conj eq_refl eq_refl)))).
Defined.

(** A record section, for any title and any list of records: the badge
    is the number of records; an empty list gives the message "No
    <title> records found" and no rows; a non-empty list gives one row
    per record, in order, showing the record's value.  A row carries the
    label "TTL: n s" exactly when the record has a ttl [n] that is not
    falsy; a falsy ttl (a zero or NaN) is rendered as the bare number,
    and a missing ttl as nothing. *)
Theorem RecordSection_shape (title description : jsstring)
  (records : list DNSRecord) :
  secBadge (RecordSection title records description) = length records /\
  (records = [] ->
   secBody (RecordSection title records description)
   = Message (lit "No " ++ title ++ lit " records found")) /\
  (records <> [] ->
   exists rows,
     secBody (RecordSection title records description) = Rows rows /\
     map rowValue rows = map value records /\
     Forall2 (fun rc row =>
                (forall n, rowTtl row = TtlLabel n
                           <-> ttl rc = Some n /\ falsy n = false) /\
                (forall n, rowTtl row = BareTtl n
                           <-> ttl rc = Some n /\ falsy n = true) /\
                (rowTtl row = NoTtl <-> ttl rc = None))
             records rows) /\
  (forall n, falsy n = true
             <-> n = NaN \/ exists q, n = Finite q /\ (q == 0)%Q).
Proof.
  split; [reflexivity|]. split; [intros ->; reflexivity|]. split.
  - intros N. exists (map recordRow records).
    split; [destruct records; [exfalso; now apply N | reflexivity]|].
    split; [rewrite map_map; reflexivity|].
    clear N. induction records as [|rc l IH]; simpl; constructor; [|exact IH].
    unfold recordRow, ttlCell. simpl.
    destruct (ttl rc) as [n|]; [destruct (falsy n) eqn:F|].
    + split; [|split]; [intros m | intros m |]; split; intros H;
        try discriminate H.
      * destruct H as [H1 H2]. injection H1 as <-. congruence.
      * injection H as <-. split; [reflexivity | exact F].
      * destruct H as [H1 _]. now injection H1 as <-.
    + split; [|split]; [intros m | intros m |]; split; intros H;
        try discriminate H.
      * injection H as <-. split; [reflexivity | exact F].
      * destruct H as [H1 _]. now injection H1 as <-.
      * destruct H as [H1 H2]. injection H1 as <-. congruence.
    + split; [|split]; [intros m | intros m |]; split; intros H;
        try discriminate H; try reflexivity;
        destruct H as [H _]; discriminate H.
  - intros n. destruct n as [q | | |]; simpl.
    + rewrite Qeq_bool_iff. split.
      * intros H. right. exists q. split; [reflexivity | exact H].
      * intros [H | (q' & H & E)]; [discriminate H|].
        injection H as <-. exact E.
    + split; [discriminate|].
      intros [H | (q' & H & _)]; discriminate H.
    + split; [discriminate|].
      intros [H | (q' & H & _)]; discriminate H.
    + split; [intros _; now left | reflexivity].
Qed.

(* ================================================================== *)
(** ** The Enter key and the buttons *)

(** The Enter key of the domain field is not held back by the loading
    flag that disables the lookup button: pressed while a call is in
    flight, with an accepted domain, it runs a whole lookup, which stores
    a result for the domain and ends with both buttons enabled and back
    to their idle labels.  Any other key does nothing. *)
Theorem enter_key_ignores_loading (st : State) (env : Env) :
  loading st = true ->
  accepted (domain st) ->
  fst (lookupButton st) = true /\
  (exists r,
     results (run (onKeyPressDomain (lit "Enter")) st env) = Some r /\
     DNSResults.domain r = domain st) /\
  lookupButton (run (onKeyPressDomain (lit "Enter")) st env)
  = (false, lit "Lookup DNS") /\
  scanButton (run (onKeyPressDomain (lit "Enter")) st env)
  = (false, lit "Find Subdomains") /\
  forall key, key <> lit "Enter" -> onKeyPressDomain key st env = [].
Proof.
  intros L A.
  destruct (performDNSLookup_effects st env A) as (r & E & F).
  assert (K : onKeyPressDomain (lit "Enter") st env = performDNSLookup st env)
    by reflexivity.
  split; [unfold lookupButton; now rewrite L|].
  unfold run. rewrite K, F.
  split.
  - exists r. split; [reflexivity|].
    rewrite performDNSLookup_try_records in E. now injection E as <-.
  - split; [reflexivity|]. split; [reflexivity|].
    intros key N. unfold onKeyPressDomain.
    destruct (jsstring_eqb key (lit "Enter")) eqn:Q; [|reflexivity].
    apply jsstring_eqb_eq in Q. congruence.
Qed.

Lemma enter_key_ignores_loading_witness :
  loading (apply_effect (state_of "example.com" "") (SetLoading true)) = true /\
  lookupButton
    (run (onKeyPressDomain (lit "Enter"))
       (apply_effect (state_of "example.com" "") (SetLoading true))
       (env_of (1 # 2)))
  = (false, lit "Lookup DNS").
Proof.
  split; [reflexivity|].
  exact (proj1 (proj2 (proj2
           (enter_key_ignores_loading
              (apply_effect (state_of "example.com" "") (SetLoading true))
              (env_of (1 # 2)) eq_refl (conj eq_refl eq_refl))))).
Defined.

(* ================================================================== *)
(** ** Lookups and scans followed by an export *)

(** The file name of a lookup export in a reachable state: with a clock
    reading of the form <date>T<time> at export time, it is
    "dns-lookup-<domain>-<date>.json", where the date is the day of the
    export, not of the lookup, and the domain has only letters, digits,
    dots and hyphens. *)
Theorem lookup_export_filename (st : State) (env : Env) (r : DNSResults.t)
  (date time : jsstring) :
  reachable st ->
  results st = Some r ->
  now env 0 = date ++ code "T" :: time ->
  ~ In (code "T") date ->
  exportResults st env
  = [Download
       (lit "dns-lookup-" ++ DNSResults.domain r ++ lit "-" ++ date
        ++ lit ".json")
       (JObj (exportData r env))] /\
  Forall (fun c => hostChar c = true) (DNSResults.domain r).
Proof.
  intros R H T N. split.
  - unfold exportResults. rewrite H, T. now rewrite split_head_found.
  - destruct (reachable_ok st R) as [G _].
    apply pattern_chars. exact (proj1 (G r H)).
Qed.

Lemma lookup_export_filename_witness :
  exists v,
    exportResults
      (run performDNSLookup (setDomain (lit "example.com") initialState)
         (env_of (1 # 2)))
      (env_of 0)
    = [Download (lit "dns-lookup-example.com-2024-05-01.json") v].
Proof.
  assert (R : reachable
                (run performDNSLookup
                   (setDomain (lit "example.com") initialState)
                   (env_of (1 # 2)))).
  { apply reachable_lookup; [exact valid_random_half|].
    apply reach_setDomain. exact reach_init. }
  eexists.
  refine (proj1 (lookup_export_filename _ (env_of 0) _
                   (lit "2024-05-01") (lit "12:00:00.000Z") R eq_refl eq_refl _)).
  simpl. intuition discriminate.
Defined.

(** A lookup of an accepted domain followed by an export downloads one
    object whose domain is the input as typed, whose timestamp is the
    clock reading of the lookup, whose records value is an object with
    the six record keys, each holding an array, and whose userAgent is
    the one read at export time; the export changes no state. *)
Theorem lookup_then_export (st : State) (env env' : Env) :
  accepted (domain st) ->
  exists r fname,
    results (run performDNSLookup st env) = Some r /\
    exportResults (run performDNSLookup st env) env'
    = [Download fname (JObj (exportData r env'))] /\
    obj_get (lit "domain") (exportData r env') = Some (JStr (domain st)) /\
    obj_get (lit "timestamp") (exportData r env') = Some (JStr (now env 0)) /\
    (exists recs,
       obj_get (lit "records") (exportData r env') = Some (JObj recs) /\
       map fst recs = recordTypes /\
       Forall (fun kv => exists arr, snd kv = JArr arr) recs) /\
    obj_get (lit "userAgent") (exportData r env') = Some (JStr (userAgent env')) /\
    run exportResults (run performDNSLookup st env) env'
    = run performDNSLookup st env.
Proof.
  intros A.
  pose proof (performDNSLookup_stores st env A) as S.
  rewrite performDNSLookup_try_records, try_records_explicit in S.
  do 2 eexists. split; [exact S|].
  split; [unfold exportResults; rewrite S; reflexivity|].
  split; [reflexivity|]. split; [reflexivity|].
  split.
  - eexists. split; [reflexivity|]. split; [reflexivity|].
    repeat (apply Forall_cons; [eexists; reflexivity|]). apply Forall_nil.
  - split; [reflexivity|].
    unfold run at 1. unfold exportResults. rewrite S. reflexivity.
Qed.

Lemma lookup_then_export_witness :
  accepted (domain (state_of "example.com" "")) /\
  exists r fname,
    results (run performDNSLookup (state_of "example.com" "") (env_of (7 # 8)))
    = Some r /\
    exportResults
      (run performDNSLookup (state_of "example.com" "") (env_of (7 # 8)))
      (env_of 0)
    = [Download fname (JObj (exportData r (env_of 0)))] /\
    obj_get (lit "domain") (exportData r (env_of 0))
    = Some (JStr (lit "example.com")).
Proof.
  assert (A : accepted (domain (state_of "example.com" "")))
    by (split; reflexivity).
  split; [exact A|].
  destruct (lookup_then_export (state_of "example.com" "") (env_of (7 # 8))
              (env_of 0) A) as (r & fname & S & X & D & _).
  exists r, fname. split; [exact S|]. split; [exact X|]. exact D.
Defined.

(** A scan of a non-blank input followed by an export downloads one
    object named "subdomain-scan-<input>-<date>.json" with the keys
    domain, subdomains, totalFound, userAgent and toolInfo, whose domain
    is the input as typed and whose totalFound is the number of entries
    of its subdomains array, between 4 and 8; the export changes no
    state. *)
Theorem scan_then_export (st : State) (env env' : Env) :
  blank (subdomainDomain st) = false ->
  valid_random env ->
  exists res subs,
    subdomainResults (run findSubdomains st env) = Some res /\
    exportSubdomainResults (run findSubdomains st env) env'
    = [Download
         (lit "subdomain-scan-" ++ subdomainDomain st ++ lit "-"
          ++ split_head (code "T") (now env' 0) ++ lit ".json")
         (JObj (exportSubdomainData res env'))] /\
    obj_keys (exportSubdomainData res env')
    = map lit ["domain"; "subdomains"; "totalFound"; "userAgent";
               "toolInfo"]%string /\
    obj_get (lit "domain") (exportSubdomainData res env')
    = Some (JStr (subdomainDomain st)) /\
    obj_get (lit "subdomains") (exportSubdomainData res env')
    = Some (JArr subs) /\
    obj_get (lit "totalFound") (exportSubdomainData res env')
    = Some (JNum (int (Z.of_nat (length subs)))) /\
    (4 <= length subs <= 8)%nat /\
    run exportSubdomainResults (run findSubdomains st env) env'
    = run findSubdomains st env.
Proof.
  intros B Hr.
  pose proof (findSubdomains_stores st env B) as S.
  exists (scanResult (subdomainDomain st) env).
  exists (map js_of_Subdomain (foundSubdomains (subdomainDomain st) env)).
  split; [exact S|].
  split; [unfold exportSubdomainResults; rewrite S; reflexivity|].
  split; [reflexivity|]. split; [reflexivity|]. split; [reflexivity|].
  split; [simpl; now rewrite length_map|].
  split.
  - rewrite length_map.
    destruct (foundSubdomains_firstn (subdomainDomain st) env Hr)
      as (k & Hk & ->).
    rewrite length_firstn. simpl length. lia.
  - unfold run at 1. unfold exportSubdomainResults. rewrite S. reflexivity.
Qed.

Lemma scan_then_export_witness :
  blank (subdomainDomain (state_of "" "example.org")) = false /\
  valid_random (env_of (1 # 2)) /\
  exists res (subs : list jsval),
    subdomainResults (run findSubdomains (state_of "" "example.org")
                        (env_of (1 # 2)))
    = Some res /\
    exportSubdomainResults
      (run findSubdomains (state_of "" "example.org") (env_of (1 # 2)))
      (env_of 0)
    = [Download (lit "subdomain-scan-example.org-2024-05-01.json")
         (JObj (exportSubdomainData res (env_of 0)))] /\
    obj_get (lit "totalFound") (exportSubdomainData res (env_of 0))
    = Some (JNum (int (Z.of_nat (length subs)))) /\
    length subs = 7%nat.
Proof.
  split; [reflexivity|]. split; [exact valid_random_half|].
  destruct (scan_then_export (state_of "" "example.org") (env_of (1 # 2))
              (env_of 0) eq_refl valid_random_half)
    as (res & subs & S & X & _ & _ & A & T & _ & _).
  exists res, subs. split; [exact S|]. split; [exact X|]. split; [exact T|].
  injection S as <-. injection A as <-. reflexivity.
Defined.
